(** * RT5670 voice-DSP control path (sound/soc/codecs/rt5670-dsp.c)

    A shallow embedding of the DSP part of the RT5670 codec driver: the
    busy-wait handshake on the three DSP control registers
    ([rt5670_dsp_done], [rt5670_dsp_write], [rt5670_dsp_read]), the
    firmware mode table ([rt5670_dsp_set_mode]), the DAPM power event
    ([rt5670_dsp_event]) and the firmware callback
    ([rt5670_dsp_fw_loaded]).

    The codec bus ([snd_soc_read], [snd_soc_write], [snd_soc_update_bits],
    [mdelay]) is an interface the driver calls; it is a type class here, and
    every result below holds for every implementation of it.  C integers are
    [Z] with the conversions between [int] and [unsigned int] written out.
    Accesses to the firmware buffer are checked: an index outside the buffer
    ends the run with [OutOfBounds]. *)

From Equations Require Import Equations.
From Stdlib Require Import ZArith List Bool Lia.
From Stdlib Require Import Strings.Byte.
From Stdlib Require Strings.String.
Import String.StringSyntax.
Delimit Scope string_scope with string.
Import ListNotations.
Local Open Scope Z_scope.

(** ** C integers *)

Definition uint32 (x : Z) : Z := x mod 2 ^ 32.

Definition int32 (x : Z) : Z :=
  let y := x mod 2 ^ 32 in if y <? 2 ^ 31 then y else y - 2 ^ 32.

Definition u8 (b : byte) : Z := Z.of_N (Byte.to_N b).

(** [a * b] and [a + b] on [int].  The kernel is compiled with
    -fno-strict-overflow, so signed arithmetic wraps. *)
Definition int_mul (a b : Z) : Z := int32 (a * b).
Definition int_add (a b : Z) : Z := int32 (a + b).

(** errno values of the kernel (include/uapi/asm-generic/errno-base.h). *)
Definition EBUSY : Z := 16.
Definition EINVAL : Z := 22.

(** ** The register map

    rt5670.h and rt5670-dsp.h are not part of the sources at hand; the
    register addresses and bit fields the driver names are taken as
    parameters. *)
Class Rt5670Header : Type := {
  RT5670_DSP_CTRL1 : Z;       (* command / status register *)
  RT5670_DSP_CTRL2 : Z;       (* address register *)
  RT5670_DSP_CTRL3 : Z;       (* data register *)
  RT5670_DSP_CTRL5 : Z;       (* data read-back register *)
  RT5670_DSP_BUSY_MASK : Z;
  RT5670_DSP_RW_MASK : Z;
  RT5670_DSP_I2C_AL_16 : Z;
  RT5670_DSP_DL_0 : Z;
  RT5670_DSP_DL_1 : Z;
  RT5670_DSP_DL_2 : Z;
  RT5670_DSP_CMD_MW : Z;
  RT5670_DSP_CMD_MR : Z;
  RT5670_DSP_CMD_RR : Z;
  RT5670_DSP_CLK_96K : Z;
  RT5670_DSP_CMD_EN : Z;
  RT5670_DIG_MISC : Z;
  RT5670_RST_DSP : Z;
  RT5670_PWR_DIG2 : Z;
  RT5670_PWR_I2S_DSP : Z
}.

(** ** The codec bus

    [D] is the state of the device behind the bus.  Each call may change it
    and, but for [mdelay], returns a value. *)
Class CodecBus (D : Type) : Type := {
  hw_read : D -> Z -> Z * D;
  hw_write : D -> Z -> Z -> Z * D;
  hw_update_bits : D -> Z -> Z -> Z -> Z * D;
  hw_mdelay : D -> Z -> D
}.

(** What the driver did on the bus, in order. *)
Inductive bus_op : Type :=
| OpRead (reg : Z)
| OpWrite (reg val : Z)
| OpUpdateBits (reg mask val : Z)
| OpDelay (ms : Z).

(** ** Firmware *)

(** [struct firmware]: [data] is the byte buffer, [size] its length. *)
Record firmware : Type := mk_firmware { data : list byte }.

Definition size (fw : firmware) : Z := Z.of_nat (length (data fw)).

(** [fw->data[i]], checked. *)
Definition fw_byte (fw : firmware) (i : Z) : option byte :=
  if i <? 0 then None else nth_error (data fw) (Z.to_nat i).

(** ** Driver state and the monad of driver code *)

Record state (D : Type) : Type := mk_state {
  codec : D;                           (* the device behind the bus *)
  rt5670_dsp_fw : option firmware;     (* the static firmware pointer *)
  dsp_sw : Z;                          (* rt5670_priv.dsp_sw *)
  trace : list bus_op                  (* bus operations issued so far *)
}.
Arguments mk_state {D}.
Arguments codec {D}.
Arguments rt5670_dsp_fw {D}.
Arguments dsp_sw {D}.
Arguments trace {D}.

Inductive res (D A : Type) : Type :=
| Ok (a : A) (s : state D)
| OutOfBounds (idx : Z).
Arguments Ok {D A}.
Arguments OutOfBounds {D A}.

Definition M (D A : Type) : Type := state D -> res D A.

Definition Return {D A} (a : A) : M D A := fun s => Ok a s.

Definition Bind {D A B} (m : M D A) (k : A -> M D B) : M D B :=
  fun s => match m s with
           | Ok a s' => k a s'
           | OutOfBounds i => OutOfBounds i
           end.

Notation "x <- m ;; k" := (Bind m (fun x => k))
  (at level 61, m at next level, right associativity).
Notation "m ;;; k" := (Bind m (fun _ => k))
  (at level 61, right associativity).

Definition emit {D} (s : state D) (d : D) (op : bus_op) : state D :=
  mk_state d (rt5670_dsp_fw s) (dsp_sw s) (trace s ++ [op]).

Section Driver.

Context {hdr : Rt5670Header} {D : Type} {bus : CodecBus D}.

(** ** Bus primitives *)

(** [unsigned int snd_soc_read(codec, reg)] *)
Definition snd_soc_read (reg : Z) : M D Z :=
  fun s => let (v, d) := hw_read (codec s) reg in
           Ok (uint32 v) (emit s d (OpRead reg)).

(** [int snd_soc_write(codec, reg, val)] *)
Definition snd_soc_write (reg val : Z) : M D Z :=
  fun s => let (r, d) := hw_write (codec s) reg val in
           Ok (int32 r) (emit s d (OpWrite reg val)).

(** [int snd_soc_update_bits(codec, reg, mask, value)] *)
Definition snd_soc_update_bits (reg mask val : Z) : M D Z :=
  fun s => let (r, d) := hw_update_bits (codec s) reg mask val in
           Ok (int32 r) (emit s d (OpUpdateBits reg mask val)).

Definition mdelay (ms : Z) : M D unit :=
  fun s => Ok tt (emit s (hw_mdelay (codec s) ms) (OpDelay ms)).

(** ** rt5670_dsp_done *)

(** [dsp_val & RT5670_DSP_BUSY_MASK] as a C condition. *)
Definition dsp_busy (dsp_val : Z) : bool :=
  negb (Z.land dsp_val RT5670_DSP_BUSY_MASK =? 0).

(** Re-reads the loop can still make when entered with [count]. *)
Definition polls_left (count : Z) : nat := Z.to_nat (11 - count).
Arguments polls_left : simpl never.

(** The [while] loop, entered with the current [count] and [dsp_val].
    [count] only grows to 11, so the unsigned counter never wraps. *)
Equations? dsp_done_loop (count dsp_val : Z) (s : state D) : res D Z
  by wf (polls_left count) lt :=
  dsp_done_loop count dsp_val s with dsp_busy dsp_val => {
    | false := Ok 0 s
    | true with Z_gt_dec count 10 => {
      | left Hgt := Ok (- EBUSY) s
      | right Hle with snd_soc_read RT5670_DSP_CTRL1 s => {
        | Ok v s' := dsp_done_loop (count + 1) v s'
        | OutOfBounds i := OutOfBounds i } } }.
Proof. unfold polls_left. lia. Qed.

Definition rt5670_dsp_done : M D Z :=
  dsp_val <- snd_soc_read RT5670_DSP_CTRL1 ;;
  dsp_done_loop 0 dsp_val.

(** ** rt5670_dsp_write

    [dev_err] only logs; it is left out here and below. *)

Definition DSP_CLK_RATE : Z := RT5670_DSP_CLK_96K.

(** The command word of a DSP memory write. *)
Definition dsp_cmd_mw : Z :=
  Z.lor (Z.lor (Z.lor (Z.lor RT5670_DSP_I2C_AL_16 RT5670_DSP_DL_2)
    RT5670_DSP_CMD_MW) DSP_CLK_RATE) RT5670_DSP_CMD_EN.

Definition rt5670_dsp_write (addr data : Z) : M D Z :=
  ret <- snd_soc_write RT5670_DSP_CTRL2 addr ;;
  if ret <? 0 then Return ret else
  ret <- snd_soc_write RT5670_DSP_CTRL3 data ;;
  if ret <? 0 then Return ret else
  let dsp_val := dsp_cmd_mw in
  ret <- snd_soc_write RT5670_DSP_CTRL1 dsp_val ;;
  if ret <? 0 then Return ret else
  ret <- rt5670_dsp_done ;;
  if ret <? 0 then Return ret else
  Return 0.

(** ** rt5670_dsp_read *)

(** The command word of a DSP memory read. *)
Definition dsp_cmd_mr : Z :=
  Z.lor (Z.lor (Z.lor (Z.lor (Z.lor RT5670_DSP_I2C_AL_16 RT5670_DSP_DL_0)
    RT5670_DSP_RW_MASK) RT5670_DSP_CMD_MR) DSP_CLK_RATE) RT5670_DSP_CMD_EN.

(** The command word of a one-byte DSP register read. *)
Definition dsp_cmd_rr : Z :=
  Z.lor (Z.lor (Z.lor (Z.lor RT5670_DSP_DL_1 RT5670_DSP_CMD_RR)
    RT5670_DSP_RW_MASK) DSP_CLK_RATE) RT5670_DSP_CMD_EN.

(** The function returns [unsigned int]: on the [err] path the negative
    [int ret] is converted on return. *)
Definition rt5670_dsp_read (reg : Z) : M D Z :=
  ret <- rt5670_dsp_done ;;
  if ret <? 0 then Return (uint32 ret) else
  ret <- snd_soc_write RT5670_DSP_CTRL2 reg ;;
  if ret <? 0 then Return (uint32 ret) else
  let dsp_val := dsp_cmd_mr in
  ret <- snd_soc_write RT5670_DSP_CTRL1 dsp_val ;;
  if ret <? 0 then Return (uint32 ret) else
  ret <- rt5670_dsp_done ;;
  if ret <? 0 then Return (uint32 ret) else
  ret <- snd_soc_write RT5670_DSP_CTRL2 0x26 ;;
  if ret <? 0 then Return (uint32 ret) else
  let dsp_val := dsp_cmd_rr in
  ret <- snd_soc_write RT5670_DSP_CTRL1 dsp_val ;;
  if ret <? 0 then Return (uint32 ret) else
  ret <- rt5670_dsp_done ;;
  if ret <? 0 then Return (uint32 ret) else
  ret <- snd_soc_write RT5670_DSP_CTRL2 0x25 ;;
  if ret <? 0 then Return (uint32 ret) else
  let dsp_val := dsp_cmd_rr in
  ret <- snd_soc_write RT5670_DSP_CTRL1 dsp_val ;;
  if ret <? 0 then Return (uint32 ret) else
  ret <- rt5670_dsp_done ;;
  if ret <? 0 then Return (uint32 ret) else
  v <- snd_soc_read RT5670_DSP_CTRL5 ;;
  let ret := int32 v in
  if ret <? 0 then Return (uint32 ret) else
  let value := uint32 ret in
  Return value.

(** ** Firmware replay *)

(** [fw->data[i]] inside driver code. *)
Definition fw_read (fw : firmware) (i : Z) : M D byte :=
  fun s => match fw_byte fw i with
           | Some b => Ok b s
           | None => OutOfBounds i
           end.

(** The 5 bytes of a table entry as the (register address, data value) pair
    they stand for.  Neither the sources at hand nor the specification fix
    the encoding, so it is a parameter. *)
Variable decode_entry : byte -> byte -> byte -> byte -> byte -> Z * Z.

(** Modelled from the spec: the loop of [rt5670_write_fw], which is defined
    in rt5670.c, not among the sources.  Spec 4.2, step 5: for each of the
    [tab_num] entries starting at [pos], decode a (register address, data
    value) pair and call the register write; abort and surface the first
    handshake failure; entries already applied are not rolled back.  Step 6:
    success once all entries are applied.  An entry is 5 bytes. *)
Fixpoint write_fw_from (fw : firmware) (pos i : Z) (todo : nat) : M D Z :=
  match todo with
  | O => Return 0
  | S todo' =>
      b0 <- fw_read fw (pos + i * 5) ;;
      b1 <- fw_read fw (pos + i * 5 + 1) ;;
      b2 <- fw_read fw (pos + i * 5 + 2) ;;
      b3 <- fw_read fw (pos + i * 5 + 3) ;;
      b4 <- fw_read fw (pos + i * 5 + 4) ;;
      let (addr, val) := decode_entry b0 b1 b2 b3 b4 in
      ret <- rt5670_dsp_write addr val ;;
      if ret <? 0 then Return ret else write_fw_from fw pos (i + 1) todo'
  end.

(** Modelled from the spec: [rt5670_write_fw(codec, fw, pos, tab_num)] of
    rt5670.c, not among the sources; the replay of spec 4.2, steps 5 and 6,
    over the [tab_num] entries of the table at [pos]. *)
Definition rt5670_write_fw (fw : firmware) (pos tab_num : Z) : M D Z :=
  write_fw_from fw pos 0 (Z.to_nat tab_num).

(** ** rt5670_dsp_set_mode

    [pos] is [unsigned int]; [tab_num], [n] and [mode] are [int], and so
    are the indices [mode * 3 + k], which wrap as [int] does.  The two
    bytes of [pos] are read in the order the expression names them. *)
Definition set_mode_with (fw : firmware) (mode : Z) : M D Z :=
  b <- fw_read fw 0 ;;
  let n := u8 b in
  if mode <=? n then
    lo <- fw_read fw (int_add (int_mul mode 3) 2) ;;
    hi <- fw_read fw (int_add (int_mul mode 3) 1) ;;
    let pos := uint32 (Z.lor (u8 lo) (Z.shiftl (u8 hi) 8)) in
    t <- fw_read fw (int_add (int_mul mode 3) 3) ;;
    let tab_num := u8 t in
    if uint32 (pos + tab_num * 5) >? size fw then Return (- EINVAL)
    else rt5670_write_fw fw pos tab_num
  else Return (- EINVAL).

Definition rt5670_dsp_set_mode (mode : Z) : M D Z :=
  fun s => match rt5670_dsp_fw s with
           | Some fw => set_mode_with fw mode s
           | None => Ok (- EINVAL) s
           end.

(** ** rt5670_dsp_event *)

Inductive dapm_event : Type :=
| SND_SOC_DAPM_POST_PMU
| SND_SOC_DAPM_POST_PMD
| SND_SOC_DAPM_OTHER (event : Z).

Definition rt5670_dsp_event (event : dapm_event) : M D Z :=
  match event with
  | SND_SOC_DAPM_POST_PMD =>
      rt5670_dsp_write 0x22f9 1 ;;;
      Return 0
  | SND_SOC_DAPM_POST_PMU =>
      snd_soc_update_bits RT5670_DIG_MISC RT5670_RST_DSP RT5670_RST_DSP ;;;
      snd_soc_update_bits RT5670_DIG_MISC RT5670_RST_DSP 0 ;;;
      mdelay 10 ;;;
      (fun s => rt5670_dsp_set_mode (dsp_sw s) s) ;;;
      Return 0
  | SND_SOC_DAPM_OTHER _ => Return 0
  end.

(** ** rt5670_dsp_fw_loaded

    [fw] is the pointer the firmware loader hands over, [None] for NULL. *)
Definition rt5670_dsp_fw_loaded (fw : option firmware) : M D unit :=
  fun s => match fw with
           | Some f => Ok tt (mk_state (codec s) (Some f) (dsp_sw s) (trace s))
           | None => Ok tt s
           end.

End Driver.

(** ** The control "DSP Function Switch" *)

Section Controls.

Context {D : Type}.

(** Conversion of a [long] to the type of the field [rt5670_priv.dsp_sw].
    The field is declared in rt5670.h, which is not among the sources, so
    its type is left open. *)
Variable dsp_sw_type : Z -> Z.

(** [rt5670_dsp_mode_get]: the pair is the return value and what the call
    stores in [ucontrol->value.integer.value[0]]. *)
Definition rt5670_dsp_mode_get : M D (Z * Z) :=
  fun s => Ok (0, dsp_sw s) s.

(** [rt5670_dsp_mode_put], with [value] for
    [ucontrol->value.integer.value[0]]. *)
Definition rt5670_dsp_mode_put (value : Z) : M D Z :=
  fun s =>
    if negb (dsp_sw s =? value)
    then Ok 0 (mk_state (codec s) (rt5670_dsp_fw s) (dsp_sw_type value)
                        (trace s))
    else Ok 0 s.

End Controls.

(** ** rt5670_dsp_probe *)

(** The tables the probe registers, by the names of their entries. *)
Definition rt5670_dsp_snd_controls : list String.string :=
  [ "RxDP SRC Switch"; "TxDP SRC Switch"; "DSP Function Switch" ]%string.

Definition rt5670_dsp_dapm_widgets : list String.string :=
  [ "Voice DSP"; "DSP Downstream"; "DSP Upstream" ]%string.

(** A route is sink, control, source; [None] for a NULL control. *)
Definition rt5670_dsp_dapm_routes
  : list (String.string * option String.string * String.string) :=
  [ ("DSP Downstream", None, "Voice DSP");
    ("DSP Downstream", None, "RxDP Mux");
    ("DSP Upstream", None, "Voice DSP");
    ("DSP Upstream", None, "TDM Data Mux");
    ("DSP DL Mux", Some "DSP", "DSP Downstream");
    ("DSP UL Mux", Some "DSP", "DSP Upstream") ]%string.

(** The calls the probe makes into the sound core and the firmware loader,
    with the table and the [ARRAY_SIZE] it passes. *)
Inductive framework_call : Type :=
| snd_soc_add_codec_controls (controls : list String.string) (num : nat)
| snd_soc_dapm_new_controls (widgets : list String.string) (num : nat)
| snd_soc_dapm_add_routes
    (routes : list (String.string * option String.string * String.string))
    (num : nat)
| request_firmware_nowait (name : String.string).

Section Probe.

Context {hdr : Rt5670Header} {D : Type} {bus : CodecBus D}.
Variable decode_entry : byte -> byte -> byte -> byte -> byte -> Z * Z.

(** [codec_null] says whether the [codec] argument is NULL.  The result is
    the return value with the framework calls made, in order; they all
    follow the last bus operation. *)
Definition rt5670_dsp_probe (codec_null : bool)
  : M D (Z * list framework_call) :=
  if codec_null then Return (- EINVAL, [])
  else
    snd_soc_update_bits RT5670_PWR_DIG2
      RT5670_PWR_I2S_DSP RT5670_PWR_I2S_DSP ;;;
    snd_soc_update_bits RT5670_DIG_MISC RT5670_RST_DSP RT5670_RST_DSP ;;;
    snd_soc_update_bits RT5670_DIG_MISC RT5670_RST_DSP 0 ;;;
    mdelay 10 ;;;
    rt5670_dsp_set_mode decode_entry 0 ;;;
    mdelay 15 ;;;
    rt5670_dsp_write 0x22f9 1 ;;;
    snd_soc_update_bits RT5670_PWR_DIG2 RT5670_PWR_I2S_DSP 0 ;;;
    Return
      (0,
       [ snd_soc_add_codec_controls rt5670_dsp_snd_controls
           (length rt5670_dsp_snd_controls);
         snd_soc_dapm_new_controls rt5670_dsp_dapm_widgets
           (length rt5670_dsp_dapm_widgets);
         snd_soc_dapm_add_routes rt5670_dsp_dapm_routes
           (length rt5670_dsp_dapm_routes);
         request_firmware_nowait "rt567x_dsp.bin"%string ]).

End Probe.

(** ** A scripted device

    A bus whose answers are fixed in advance: reads and writes take their
    return values from two lists, and answer 0 once a list is used up. *)
Record sim : Type := mk_sim { sim_reads : list Z; sim_writes : list Z }.

#[export] Instance sim_bus : CodecBus sim := {
  hw_read d _ := (hd 0 (sim_reads d), mk_sim (tl (sim_reads d)) (sim_writes d));
  hw_write d _ _ :=
    (hd 0 (sim_writes d), mk_sim (sim_reads d) (tl (sim_writes d)));
  hw_update_bits d _ _ _ := (0, d);
  hw_mdelay d _ := d
}.

(** A register map to run the model on: the three control registers sit
    where the driver's comments put them (cmd 0xe0, addr 0xe1, data 0xe2). *)
Definition sample_header : Rt5670Header := {|
  RT5670_DSP_CTRL1 := 0xe0;
  RT5670_DSP_CTRL2 := 0xe1;
  RT5670_DSP_CTRL3 := 0xe2;
  RT5670_DSP_CTRL5 := 0xe4;
  RT5670_DSP_BUSY_MASK := 0x20;
  RT5670_DSP_RW_MASK := 0x10;
  RT5670_DSP_I2C_AL_16 := 0x2;
  RT5670_DSP_DL_0 := 0x0;
  RT5670_DSP_DL_1 := 0x4;
  RT5670_DSP_DL_2 := 0x8;
  RT5670_DSP_CMD_MW := 0x3b00;
  RT5670_DSP_CMD_MR := 0x3700;
  RT5670_DSP_CMD_RR := 0x6000;
  RT5670_DSP_CLK_96K := 0xc0;
  RT5670_DSP_CMD_EN := 0x1;
  RT5670_DIG_MISC := 0xfa;
  RT5670_RST_DSP := 0x4;
  RT5670_PWR_DIG2 := 0x62;
  RT5670_PWR_I2S_DSP := 0x40
|}.

(** A decoder to run the replay on: address from the first two bytes, data
    from the next two, both high byte first. *)
Definition sample_decode (b0 b1 b2 b3 b4 : byte) : Z * Z :=
  (Z.lor (Z.shiftl (u8 b0) 8) (u8 b1), Z.lor (Z.shiftl (u8 b2) 8) (u8 b3)).

Definition sim_state (reads writes : list Z) (fw : option firmware)
    (mode : Z) : state sim :=
  mk_state (mk_sim reads writes) fw mode [].

Definition bytes (l : list Z) : list byte :=
  map (fun z => match Byte.of_N (Z.to_N z) with Some b => b | None => x00 end) l.

(** Two modes (count byte 1, modes 0 and 1): mode 0 has one entry at offset
    7, mode 1 has two entries at offset 12, which end with the image. *)
Definition fw_two_modes : firmware :=
  mk_firmware (bytes [ 1;  0; 7; 1;  0; 12; 2;
                       0x12; 0x34; 0x56; 0x78; 0;
                       0; 1; 0; 2; 0;
                       0; 3; 0; 4; 0 ]).

(** One mode whose table (one entry at offset 4) runs past the 6 bytes. *)
Definition fw_corrupt : firmware :=
  mk_firmware (bytes [ 0;  0; 4; 1;  9; 9 ]).

(** Count byte 1, but the image ends inside the slot of mode 1. *)
Definition fw_short : firmware :=
  mk_firmware (bytes [ 1;  0; 4; 0;  0; 0 ]).

(** * Vocabulary of the properties *)

Section Vocabulary.

Context {hdr : Rt5670Header} {D : Type} {bus : CodecBus D}.

(** The values the next [k] reads of the command/status register return. *)
Fixpoint status_reads (k : nat) (d : D) : list Z :=
  match k with
  | O => []
  | S k' => let (v, d') := hw_read d RT5670_DSP_CTRL1 in
            uint32 v :: status_reads k' d'
  end.

Definition all_busy (vs : list Z) : Prop :=
  Forall (fun v => dsp_busy v = true) vs.

(** The loop of [rt5670_dsp_done] by the number of re-reads it may still
    make. *)
Fixpoint poll (k : nat) (dsp_val : Z) (s : state D) : res D Z :=
  if dsp_busy dsp_val then
    match k with
    | O => Ok (- EBUSY) s
    | S k' => match snd_soc_read RT5670_DSP_CTRL1 s with
              | Ok v s' => poll k' v s'
              | OutOfBounds i => OutOfBounds i
              end
    end
  else Ok 0 s.

(** [s'] differs from [s] by [j] reads of the command/status register. *)
Definition polled (j : nat) (s s' : state D) : Prop :=
  rt5670_dsp_fw s' = rt5670_dsp_fw s /\
  dsp_sw s' = dsp_sw s /\
  trace s' = trace s ++ repeat (OpRead RT5670_DSP_CTRL1) j.

(** ** The handshake as a sequence of steps

    A step is a wait for the DSP or one bus write.  A sequence runs step by
    step; the first step that returns a negative value ends the run, in the
    state that step left. *)
Inductive step : Type :=
| Wait
| BusWrite (reg val : Z).

Definition run_step (st : step) : M D Z :=
  match st with
  | Wait => rt5670_dsp_done
  | BusWrite reg val => snd_soc_write reg val
  end.

Inductive outcome : Type :=
| Completed
| Failed (err : Z).

Definition ret_of (o : outcome) : Z :=
  match o with
  | Completed => 0
  | Failed err => err
  end.

Inductive exec : list step -> state D -> outcome -> state D -> Prop :=
| exec_nil s : exec [] s Completed s
| exec_fail st l s err s' :
    run_step st s = Ok err s' -> err < 0 ->
    exec (st :: l) s (Failed err) s'
| exec_next st l s r s1 o s' :
    run_step st s = Ok r s1 -> 0 <= r -> exec l s1 o s' ->
    exec (st :: l) s o s'.

Fixpoint run_steps (l : list step) : M D Z :=
  match l with
  | [] => Return 0
  | st :: l' => ret <- run_step st ;;
                if ret <? 0 then Return ret else run_steps l'
  end.

(** The bus operations a sequence of steps leaves in the trace: a wait is
    one to twelve reads of the command/status register, a write is itself. *)
Inductive shaped : list step -> list bus_op -> Prop :=
| shaped_nil : shaped [] []
| shaped_wait l ops j :
    (1 <= j <= 12)%nat -> shaped l ops ->
    shaped (Wait :: l) (repeat (OpRead RT5670_DSP_CTRL1) j ++ ops)
| shaped_write l ops reg val :
    shaped l ops -> shaped (BusWrite reg val :: l) (OpWrite reg val :: ops).

(** The steps of a DSP register write and of a DSP register read (before
    the final read of the read-back register). *)
Definition write_sequence (addr data : Z) : list step :=
  [ BusWrite RT5670_DSP_CTRL2 addr;
    BusWrite RT5670_DSP_CTRL3 data;
    BusWrite RT5670_DSP_CTRL1 dsp_cmd_mw;
    Wait ].

Definition read_sequence (reg : Z) : list step :=
  [ Wait;
    BusWrite RT5670_DSP_CTRL2 reg;
    BusWrite RT5670_DSP_CTRL1 dsp_cmd_mr;
    Wait;
    BusWrite RT5670_DSP_CTRL2 0x26;
    BusWrite RT5670_DSP_CTRL1 dsp_cmd_rr;
    Wait;
    BusWrite RT5670_DSP_CTRL2 0x25;
    BusWrite RT5670_DSP_CTRL1 dsp_cmd_rr;
    Wait ].

End Vocabulary.

Section ModeVocabulary.

Context {hdr : Rt5670Header} {D : Type} {bus : CodecBus D}.
Variable decode_entry : byte -> byte -> byte -> byte -> byte -> Z * Z.

(** The three bytes of the directory slot of mode [m], which starts at byte
    [1 + 3 * m] of the image. *)
Definition slot (fw : firmware) (m : Z) : list byte :=
  firstn 3 (skipn (Z.to_nat (1 + 3 * m)) (data fw)).

(** The slot's bytes as the specification counts them: the bytes at offsets
    +1, +2 and +3 from the slot's start, byte [1 + 3 * m]. *)
Definition slot_as_stated (fw : firmware) (m : Z) : list byte :=
  firstn 3 (skipn (Z.to_nat (1 + 3 * m + 1)) (data fw)).

(** [hi << 8 | lo] *)
Definition table_offset (hi lo : byte) : Z :=
  Z.lor (Z.shiftl (u8 hi) 8) (u8 lo).

(** [replayed fw pos i todo s s']: the [todo] entries from entry [i] of the
    table at [pos] lie in the image, and the register write of each of them
    returned 0, taking [s] to [s']. *)
Inductive replayed (fw : firmware) (pos : Z) :
  Z -> nat -> state D -> state D -> Prop :=
| replayed_done i s : replayed fw pos i O s s
| replayed_entry i todo s s1 s' b0 b1 b2 b3 b4 :
    fw_byte fw (pos + i * 5) = Some b0 ->
    fw_byte fw (pos + i * 5 + 1) = Some b1 ->
    fw_byte fw (pos + i * 5 + 2) = Some b2 ->
    fw_byte fw (pos + i * 5 + 3) = Some b3 ->
    fw_byte fw (pos + i * 5 + 4) = Some b4 ->
    rt5670_dsp_write (fst (decode_entry b0 b1 b2 b3 b4))
                     (snd (decode_entry b0 b1 b2 b3 b4)) s = Ok 0 s1 ->
    replayed fw pos (i + 1) todo s1 s' ->
    replayed fw pos i (S todo) s s'.

(** The value a call returned, if it returned. *)
Definition returned {A : Type} (r : res D A) : option A :=
  match r with
  | Ok a _ => Some a
  | OutOfBounds _ => None
  end.

(** The image the driver holds after a series of firmware callbacks. *)
Fixpoint deliver (fws : list (option firmware)) : M D unit :=
  match fws with
  | [] => Return tt
  | fw :: rest => rt5670_dsp_fw_loaded fw ;;; deliver rest
  end.

(** The last buffer of a series of callbacks that is not NULL, [cur] when
    there is none. *)
Definition last_loaded (cur : option firmware)
    (fws : list (option firmware)) : option firmware :=
  match find (fun fw => match fw with Some _ => true | None => false end)
             (rev fws) with
  | Some (Some f) => Some f
  | _ => cur
  end.

End ModeVocabulary.

Section FurtherVocabulary.

Context {hdr : Rt5670Header} {D : Type} {bus : CodecBus D}.

(** The number of leading values with the busy bit set. *)
Fixpoint busy_run (vs : list Z) : nat :=
  match vs with
  | [] => O
  | v :: rest => if dsp_busy v then S (busy_run rest) else O
  end.

(** The most and the fewest bus operations a sequence of steps can take
    when it runs to its end. *)
Fixpoint max_ops (l : list step) : nat :=
  match l with
  | [] => O
  | Wait :: l' => 12 + max_ops l'
  | BusWrite _ _ :: l' => 1 + max_ops l'
  end.

Fixpoint min_ops (l : list step) : nat :=
  match l with
  | [] => O
  | _ :: l' => 1 + min_ops l'
  end.

(** The state a register update and a delay leave. *)
Definition after_update_bits (s : state D) (reg mask val : Z) : state D :=
  emit s (snd (hw_update_bits (codec s) reg mask val))
       (OpUpdateBits reg mask val).

Definition after_mdelay (s : state D) (ms : Z) : state D :=
  emit s (hw_mdelay (codec s) ms) (OpDelay ms).

(** The state a bus write leaves, and the value it returns. *)
Definition after_write (s : state D) (reg val : Z) : state D :=
  emit s (snd (hw_write (codec s) reg val)) (OpWrite reg val).

Definition write_ret (s : state D) (reg val : Z) : Z :=
  int32 (fst (hw_write (codec s) reg val)).

(** The state in which the probe applies mode 0: DSP interface powered,
    reset bit set and cleared, 10 ms waited. *)
Definition probe_reset (s : state D) : state D :=
  after_mdelay
    (after_update_bits
       (after_update_bits
          (after_update_bits s RT5670_PWR_DIG2
             RT5670_PWR_I2S_DSP RT5670_PWR_I2S_DSP)
          RT5670_DIG_MISC RT5670_RST_DSP RT5670_RST_DSP)
       RT5670_DIG_MISC RT5670_RST_DSP 0)
    10.

(** The state in which the power-up event applies the requested mode. *)
Definition power_up_reset (s : state D) : state D :=
  after_mdelay
    (after_update_bits
       (after_update_bits s RT5670_DIG_MISC RT5670_RST_DSP RT5670_RST_DSP)
       RT5670_DIG_MISC RT5670_RST_DSP 0)
    10.

(** What a successful probe registers and requests. *)
Definition probe_calls : list framework_call :=
  [ snd_soc_add_codec_controls rt5670_dsp_snd_controls 3;
    snd_soc_dapm_new_controls rt5670_dsp_dapm_widgets 3;
    snd_soc_dapm_add_routes rt5670_dsp_dapm_routes 6;
    request_firmware_nowait "rt567x_dsp.bin"%string ].

End FurtherVocabulary.

(** * Properties *)

(** ** Runs on the scripted device *)

(** Ten busy reads, then ready: eleven reads, success. *)
Example dsp_done_ten_busy :
  rt5670_dsp_done (hdr := sample_header)
    (sim_state (repeat 0x20 10 ++ [0]) [] None 0)
  = Ok 0 (mk_state (mk_sim [] []) None 0 (repeat (OpRead 0xe0) 11)).
Proof. reflexivity. Qed.

(** Busy throughout: [-EBUSY] after the twelfth read. *)
Example dsp_done_always_busy :
  rt5670_dsp_done (hdr := sample_header)
    (sim_state (repeat 0x20 20) [] None 0)
  = Ok (- EBUSY) (mk_state (mk_sim (repeat 0x20 8) []) None 0
                    (repeat (OpRead 0xe0) 12)).
Proof. reflexivity. Qed.

(** A read of DSP register 0x1234 on a device that is never busy and
    answers 0xbeef on the read-back register. *)
Example dsp_read_completes :
  rt5670_dsp_read (hdr := sample_header) 0x1234
    (sim_state [0; 0; 0; 0; 0xbeef] [] None 0)
  = Ok 0xbeef
      (mk_state (mk_sim [] []) None 0
         [ OpRead 0xe0; OpWrite 0xe1 0x1234; OpWrite 0xe0 0x37d3;
           OpRead 0xe0; OpWrite 0xe1 0x26; OpWrite 0xe0 0x60d5;
           OpRead 0xe0; OpWrite 0xe1 0x25; OpWrite 0xe0 0x60d5;
           OpRead 0xe0; OpRead 0xe4 ]).
Proof. reflexivity. Qed.

(** The same read when the third bus write returns -5: the read ends there
    and returns -5 as [unsigned int]. *)
Example dsp_read_third_write_fails :
  rt5670_dsp_read (hdr := sample_header) 0x1234
    (sim_state [0; 0; 0; 0; 0xbeef] [0; 0; -5] None 0)
  = Ok (2 ^ 32 - 5)
      (mk_state (mk_sim [0; 0; 0xbeef] []) None 0
         [ OpRead 0xe0; OpWrite 0xe1 0x1234; OpWrite 0xe0 0x37d3;
           OpRead 0xe0; OpWrite 0xe1 0x26 ]).
Proof. reflexivity. Qed.

(** A write whose data-register write returns -5. *)
Example dsp_write_data_fails :
  rt5670_dsp_write (hdr := sample_header) 0x22f9 1
    (sim_state [] [0; -5] None 0)
  = Ok (-5) (mk_state (mk_sim [] []) None 0
               [ OpWrite 0xe1 0x22f9; OpWrite 0xe2 1 ]).
Proof. reflexivity. Qed.

(** Power-up with no firmware loaded. *)
Example dsp_event_no_firmware :
  rt5670_dsp_event (hdr := sample_header) sample_decode
    SND_SOC_DAPM_POST_PMU (sim_state [] [] None 2)
  = Ok 0 (mk_state (mk_sim [] []) None 2
            [ OpUpdateBits 0xfa 0x4 0x4; OpUpdateBits 0xfa 0x4 0;
              OpDelay 10 ]).
Proof. reflexivity. Qed.

Section Handshake.

Context {hdr : Rt5670Header} {D : Type} {bus : CodecBus D}.

Lemma polls_left_succ (count : Z) :
  ~ count > 10 -> polls_left count = S (polls_left (count + 1)).
Proof. unfold polls_left. lia. Qed.

Lemma polls_left_done (count : Z) : count > 10 -> polls_left count = O.
Proof. unfold polls_left. lia. Qed.

Lemma dsp_done_loop_poll (count dsp_val : Z) (s : state D) :
  dsp_done_loop count dsp_val s = poll (polls_left count) dsp_val s.
Proof.
  funelim (dsp_done_loop count dsp_val s).
  all: try rewrite <- Heqcall; clear Heqcall.
  - destruct (polls_left count); simpl; rewrite Heq; reflexivity.
  - rewrite polls_left_done by assumption. simpl. rewrite Heq0. reflexivity.
  - rewrite (polls_left_succ count) by assumption. simpl.
    rewrite Heq1, Heq. assumption.
  - rewrite (polls_left_succ count) by assumption. simpl.
    rewrite Heq1, Heq. reflexivity.
Qed.

Lemma polled_refl (s : state D) : polled 0 s s.
Proof. unfold polled. simpl. rewrite app_nil_r. auto. Qed.

Lemma polled_read (j : nat) (s s1 s' : state D) (v : Z) :
  snd_soc_read RT5670_DSP_CTRL1 s = Ok v s1 ->
  polled j s1 s' -> polled (S j) s s'.
Proof.
  unfold snd_soc_read, polled.
  destruct (hw_read (codec s) RT5670_DSP_CTRL1) as [v0 d].
  intros E (Hfw & Hsw & Htr). inversion E; subst; clear E. simpl in *.
  rewrite Hfw, Hsw, Htr, <- app_assoc. auto.
Qed.

Lemma snd_soc_read_status (s : state D) (k : nat) :
  exists v s1, snd_soc_read RT5670_DSP_CTRL1 s = Ok v s1 /\
               status_reads (S k) (codec s) = v :: status_reads k (codec s1).
Proof.
  unfold snd_soc_read. simpl.
  destruct (hw_read (codec s) RT5670_DSP_CTRL1) as [v d].
  eexists _, _. split; reflexivity.
Qed.

Ltac split_spec := refine (conj _ (conj _ (conj _ (conj _ _)))).

Lemma poll_spec (k : nat) : forall (dsp_val : Z) (s : state D),
  exists r s' j,
    poll k dsp_val s = Ok r s' /\
    (r = 0 \/ r = - EBUSY) /\
    (r = - EBUSY <->
     dsp_busy dsp_val = true /\ all_busy (status_reads k (codec s))) /\
    (j <= k)%nat /\ polled j s s'.
Proof.
  induction k as [|k IH]; intros dsp_val s; simpl.
  - destruct (dsp_busy dsp_val) eqn:Hb.
    + exists (- EBUSY), s, O. split_spec; auto using polled_refl.
      split; auto. split; [reflexivity | constructor].
    + exists 0, s, O. split_spec; auto using polled_refl.
      split; [intros H | intros [H _]]; discriminate H.
  - destruct (dsp_busy dsp_val) eqn:Hb.
    + destruct (snd_soc_read_status s k) as (v & s1 & Hrd & Hst).
      change (let (v0, d') := hw_read (codec s) RT5670_DSP_CTRL1 in
              uint32 v0 :: status_reads k d')
        with (status_reads (S k) (codec s)).
      rewrite Hrd, Hst.
      destruct (IH v s1) as (r & s' & j & Hp & Hr & Hiff & Hj & Hpol).
      exists r, s', (S j). split_spec; eauto using polled_read with arith.
      split.
      * intros Hbusy. apply Hiff in Hbusy. destruct Hbusy.
        split; [reflexivity | constructor; assumption].
      * intros [_ Hall]. inversion Hall; subst. apply Hiff. auto.
    + exists 0, s, O. split_spec; auto using polled_refl with arith.
      split; [intros H | intros [H _]]; discriminate H.
Qed.

(** [rt5670_dsp_done] always returns, with 0 or [-EBUSY], after at most
    twelve reads of the command/status register and nothing else. *)
Lemma rt5670_dsp_done_spec (s : state D) :
  exists r s' j,
    rt5670_dsp_done s = Ok r s' /\
    (r = 0 \/ r = - EBUSY) /\
    (r = - EBUSY <-> all_busy (status_reads 12 (codec s))) /\
    (1 <= j <= 12)%nat /\ polled j s s'.
Proof.
  unfold rt5670_dsp_done, Bind.
  destruct (snd_soc_read_status s 11) as (v & s1 & Hrd & Hst).
  rewrite Hrd, Hst, dsp_done_loop_poll.
  change (polls_left 0) with 11%nat.
  destruct (poll_spec 11 v s1) as (r & s' & j & Hp & Hr & Hiff & Hj & Hpol).
  exists r, s', (S j). split_spec; eauto using polled_read; try lia.
  split.
  - intros Hbusy. apply Hiff in Hbusy. destruct Hbusy.
    constructor; assumption.
  - intros Hall. inversion Hall; subst. apply Hiff. auto.
Qed.

(** ** Sequences of steps *)

Lemma snd_soc_write_total (reg val : Z) (s : state D) :
  exists r s', snd_soc_write reg val s = Ok r s' /\
               rt5670_dsp_fw s' = rt5670_dsp_fw s /\
               dsp_sw s' = dsp_sw s /\
               trace s' = trace s ++ [OpWrite reg val].
Proof.
  unfold snd_soc_write.
  destruct (hw_write (codec s) reg val) as [r d].
  eexists _, _. simpl. auto.
Qed.

(** Every step returns, leaves the driver's own fields alone, and adds to
    the trace what [shaped] says. *)
Lemma run_step_total (st : step) (s : state D) :
  exists r s' ops,
    run_step st s = Ok r s' /\
    rt5670_dsp_fw s' = rt5670_dsp_fw s /\
    dsp_sw s' = dsp_sw s /\
    trace s' = trace s ++ ops /\
    forall l ops', shaped l ops' -> shaped (st :: l) (ops ++ ops').
Proof.
  destruct st as [|reg val]; simpl.
  - destruct (rt5670_dsp_done_spec s)
      as (r & s' & j & E & _ & _ & Hj & Hfw & Hsw & Htr).
    exists r, s', (repeat (OpRead RT5670_DSP_CTRL1) j).
    repeat split; auto. intros l ops' H. now constructor.
  - destruct (snd_soc_write_total reg val s) as (r & s' & E & Hfw & Hsw & Htr).
    exists r, s', [OpWrite reg val].
    repeat split; auto. intros l ops' H. now constructor.
Qed.

Lemma exec_deterministic (l : list step) (s : state D) o1 s1 o2 s2 :
  exec l s o1 s1 -> exec l s o2 s2 -> o1 = o2 /\ s1 = s2.
Proof.
  intros H1. revert o2 s2.
  induction H1 as [s | st l s err s' E Hneg | st l s r sm o s' E Hpos H IH];
    intros o2 s2 H2; inversion H2; subst; auto.
  - rewrite E in *. match goal with H : Ok _ _ = Ok _ _ |- _ =>
      inversion H; subst end. auto.
  - rewrite E in *. match goal with H : Ok _ _ = Ok _ _ |- _ =>
      inversion H; subst end. lia.
  - rewrite E in *. match goal with H : Ok _ _ = Ok _ _ |- _ =>
      inversion H; subst end. lia.
  - rewrite E in *. match goal with H : Ok _ _ = Ok _ _ |- _ =>
      inversion H; subst end. auto.
Qed.

(** A run touches the trace only by appending the operations of the steps
    it ran: all of them when it completes, those up to and including the
    failing one otherwise. *)
Lemma exec_shaped (l : list step) (s : state D) o s' :
  exec l s o s' ->
  rt5670_dsp_fw s' = rt5670_dsp_fw s /\
  dsp_sw s' = dsp_sw s /\
  exists n ops,
    (n <= length l)%nat /\
    (o = Completed -> n = length l) /\
    shaped (firstn n l) ops /\
    trace s' = trace s ++ ops.
Proof.
  induction 1 as [s | st l s err s' E Hneg | st l s r sm o s' E Hpos H IH].
  - repeat split. exists O, []. simpl. rewrite app_nil_r.
    repeat split; auto. constructor.
  - destruct (run_step_total st s) as (r & s1 & ops & E' & Hfw & Hsw & Htr & Hsh).
    rewrite E in E'. inversion E'; subst; clear E'.
    repeat split; auto. exists 1%nat, ops. simpl. repeat split.
    + lia.
    + discriminate.
    + rewrite <- (app_nil_r ops). apply Hsh. constructor.
    + assumption.
  - destruct (run_step_total st s) as (r' & s1 & ops & E' & Hfw & Hsw & Htr & Hsh).
    rewrite E in E'. inversion E'; subst; clear E'.
    destruct IH as (Hfw' & Hsw' & n & ops' & Hn & Hc & Hsh' & Htr').
    repeat split; try congruence.
    exists (S n), (ops ++ ops'). simpl. repeat split.
    + lia.
    + intros Ho. rewrite Hc; auto.
    + apply Hsh. assumption.
    + rewrite Htr', Htr, app_assoc. reflexivity.
Qed.

(** The functional reading of a sequence agrees with the relation. *)
Lemma run_steps_exec (l : list step) : forall s : state D,
  exists o s', exec l s o s' /\ run_steps l s = Ok (ret_of o) s'.
Proof.
  induction l as [|st l IH]; intros s; simpl.
  - exists Completed, s. split; [constructor | reflexivity].
  - unfold Bind.
    destruct (run_step_total st s) as (r & s1 & ops & E & _).
    rewrite E. destruct (r <? 0) eqn:Hr.
    + exists (Failed r), s1. split; [|reflexivity].
      apply exec_fail; [assumption | lia].
    + destruct (IH s1) as (o & s' & Hex & Hrun).
      exists o, s'. split; [|assumption].
      eapply exec_next; eauto. lia.
Qed.

Lemma exec_ret_of (l : list step) (s : state D) o s' :
  exec l s o s' -> (o = Completed /\ ret_of o = 0) \/ ret_of o < 0.
Proof.
  induction 1; simpl; auto.
Qed.

(** ** The driver's read and write as sequences of steps *)

Lemma uint32_int32 (x : Z) : uint32 (int32 x) = uint32 x.
Proof.
  unfold uint32, int32. cbv zeta.
  assert (H : 0 <= x mod 2 ^ 32 < 2 ^ 32) by (apply Z.mod_pos_bound; lia).
  destruct (x mod 2 ^ 32 <? 2 ^ 31).
  - apply Z.mod_small. assumption.
  - symmetry. apply Z.mod_unique with (q := -1); lia.
Qed.

Lemma uint32_idem (x : Z) : uint32 (uint32 x) = uint32 x.
Proof. unfold uint32. apply Z.mod_mod. lia. Qed.

(** Runs both sides of an equation between driver code one bus call at a
    time: each call made in a known state is given a name for its result,
    and each test of a named return value is decided both ways. *)
Ltac run_both :=
  repeat (cbv beta iota zeta
            delta [Bind Return run_steps run_step write_sequence read_sequence];
          match goal with
          | |- ?x = ?x => reflexivity
          | |- context [rt5670_dsp_done ?s] =>
              destruct (rt5670_dsp_done s) as [? ?|?]
          | |- context [snd_soc_write ?r ?v ?s] =>
              destruct (snd_soc_write r v s) as [? ?|?]
          | |- context [if ?c <? 0 then _ else _] =>
              destruct (c <? 0) eqn:?
          end).

Lemma rt5670_dsp_write_steps (addr data : Z) (s : state D) :
  rt5670_dsp_write addr data s = run_steps (write_sequence addr data) s.
Proof.
  unfold rt5670_dsp_write. run_both.
Qed.

Lemma rt5670_dsp_read_steps (reg : Z) (s : state D) :
  rt5670_dsp_read reg s =
  match run_steps (read_sequence reg) s with
  | Ok ret s1 => if ret <? 0 then Ok (uint32 ret) s1
                 else snd_soc_read RT5670_DSP_CTRL5 s1
  | OutOfBounds i => OutOfBounds i
  end.
Proof.
  unfold rt5670_dsp_read. run_both; try discriminate.
  all: unfold snd_soc_read.
  all: destruct (hw_read _ _) as [v d].
  all: destruct (int32 (uint32 v) <? 0).
  all: rewrite uint32_int32, uint32_idem; reflexivity.
Qed.

Lemma exec_failed_neg (l : list step) (s : state D) err s' :
  exec l s (Failed err) s' -> err < 0.
Proof.
  intros H. apply exec_ret_of in H. destruct H as [[H _]|H];
    [discriminate H | exact H].
Qed.

(** A DSP register write always returns: 0 after the four steps, or the
    negative value of the first step that failed. *)
Lemma rt5670_dsp_write_total (addr data : Z) (s : state D) :
  exists o s', exec (write_sequence addr data) s o s' /\
               rt5670_dsp_write addr data s = Ok (ret_of o) s'.
Proof.
  rewrite rt5670_dsp_write_steps. apply run_steps_exec.
Qed.

(** C1 (as amended): [rt5670_dsp_done] always returns, with 0 or [-EBUSY],
    after one to twelve reads of the command/status register.  It returns
    [-EBUSY] if and only if the busy bit is set in all of the next twelve
    reads (the first read and eleven re-reads); a read with the bit clear
    anywhere among these twelve, so also after exactly ten or exactly
    eleven busy reads, makes it return 0. *)
Theorem rt5670_dsp_done_busy_iff_twelve (s : state D) :
  exists r s' j,
    rt5670_dsp_done s = Ok r s' /\
    (r = 0 \/ r = - EBUSY) /\
    (r = - EBUSY <-> all_busy (status_reads 12 (codec s))) /\
    (forall vs v rest,
        status_reads 12 (codec s) = vs ++ v :: rest ->
        dsp_busy v = false -> r = 0) /\
    (1 <= j <= 12)%nat /\ polled j s s'.
Proof.
  destruct (rt5670_dsp_done_spec s) as (r & s' & j & E & Hr & Hiff & Hj & Hp).
  exists r, s', j. repeat (split; [assumption|]). split; [|split; assumption].
  intros vs v rest Hst Hclear.
  destruct Hr as [Hr|Hr]; [assumption|].
  apply Hiff in Hr. unfold all_busy in Hr. rewrite Hst in Hr.
  apply Forall_app in Hr. destruct Hr as [_ Hr]. inversion Hr; subst.
  congruence.
Qed.

(** C3: a DSP register write runs the address write, the data write, the
    write of the memory-write command word and the wait, in this order.  It
    returns 0 exactly when all four completed; otherwise it returns the
    negative value of the first step that failed, in the state that step
    left, so that the trace holds the operations up to that step and none
    after it. *)
Theorem rt5670_dsp_write_protocol (addr data : Z) (s : state D) :
  exists o s',
    exec [ BusWrite RT5670_DSP_CTRL2 addr;
           BusWrite RT5670_DSP_CTRL3 data;
           BusWrite RT5670_DSP_CTRL1
             (Z.lor (Z.lor (Z.lor (Z.lor RT5670_DSP_I2C_AL_16 RT5670_DSP_DL_2)
                RT5670_DSP_CMD_MW) RT5670_DSP_CLK_96K) RT5670_DSP_CMD_EN);
           Wait ] s o s' /\
    rt5670_dsp_write addr data s = Ok (ret_of o) s' /\
    (ret_of o = 0 <-> o = Completed) /\
    (forall err, o = Failed err -> err < 0) /\
    exists n ops,
      (n <= 4)%nat /\ (o = Completed -> n = 4%nat) /\
      shaped (firstn n (write_sequence addr data)) ops /\
      trace s' = trace s ++ ops.
Proof.
  destruct (rt5670_dsp_write_total addr data s) as (o & s' & Hex & Hw).
  exists o, s'. split; [exact Hex|]. split; [exact Hw|].
  split; [|split].
  - split.
    + intros H0. destruct (exec_ret_of _ _ _ _ Hex) as [[Ho _]|Hneg];
        [assumption | lia].
    + intros Ho. subst o. reflexivity.
  - intros err Ho. subst o. eapply exec_failed_neg. eassumption.
  - apply exec_shaped in Hex.
    destruct Hex as (_ & _ & n & ops & Hn & Hc & Hsh & Htr).
    exists n, ops. auto.
Qed.

(** C2: a DSP register read runs the ten steps wait, address write,
    memory-read command (16-bit address, zero data length, read flag,
    memory-read code, clock selector, command enable), wait, write of 0x26
    to the address register, register-read command (one byte of data,
    register-read code, read flag, clock selector, command enable), wait,
    write of 0x25 to the address register, the same register-read command,
    wait, in this order.  When a step fails the
    read returns that step's negative value (as [unsigned int]) in the
    state the step left: no later operation reaches the bus.  When all ten
    complete, it reads the read-back register once and returns the value
    read. *)
Theorem rt5670_dsp_read_protocol (reg : Z) (s : state D) :
  exists o s1,
    exec [ Wait;
           BusWrite RT5670_DSP_CTRL2 reg;
           BusWrite RT5670_DSP_CTRL1
             (Z.lor (Z.lor (Z.lor (Z.lor (Z.lor
                RT5670_DSP_I2C_AL_16 RT5670_DSP_DL_0) RT5670_DSP_RW_MASK)
                RT5670_DSP_CMD_MR) RT5670_DSP_CLK_96K) RT5670_DSP_CMD_EN);
           Wait;
           BusWrite RT5670_DSP_CTRL2 0x26;
           BusWrite RT5670_DSP_CTRL1
             (Z.lor (Z.lor (Z.lor (Z.lor
                RT5670_DSP_DL_1 RT5670_DSP_CMD_RR) RT5670_DSP_RW_MASK)
                RT5670_DSP_CLK_96K) RT5670_DSP_CMD_EN);
           Wait;
           BusWrite RT5670_DSP_CTRL2 0x25;
           BusWrite RT5670_DSP_CTRL1
             (Z.lor (Z.lor (Z.lor (Z.lor
                RT5670_DSP_DL_1 RT5670_DSP_CMD_RR) RT5670_DSP_RW_MASK)
                RT5670_DSP_CLK_96K) RT5670_DSP_CMD_EN);
           Wait ] s o s1 /\
    match o with
    | Failed err =>
        err < 0 /\ rt5670_dsp_read reg s = Ok (uint32 err) s1
    | Completed =>
        exists v d,
          hw_read (codec s1) RT5670_DSP_CTRL5 = (v, d) /\
          rt5670_dsp_read reg s =
          Ok (uint32 v) (emit s1 d (OpRead RT5670_DSP_CTRL5))
    end /\
    exists n ops,
      (n <= 10)%nat /\ (o = Completed -> n = 10%nat) /\
      shaped (firstn n (read_sequence reg)) ops /\
      trace s1 = trace s ++ ops.
Proof.
  destruct (run_steps_exec (read_sequence reg) s) as (o & s1 & Hex & Hrun).
  exists o, s1. split; [exact Hex|]. split.
  - rewrite rt5670_dsp_read_steps, Hrun.
    destruct o as [|err]; simpl.
    + unfold snd_soc_read.
      destruct (hw_read (codec s1) RT5670_DSP_CTRL5) as [v d].
      exists v, d. split; reflexivity.
    + pose proof (exec_failed_neg _ _ _ _ Hex) as Hneg.
      split; [assumption|].
      destruct (err <? 0) eqn:E; [reflexivity | lia].
  - apply exec_shaped in Hex.
    destruct Hex as (_ & _ & n & ops & Hn & Hc & Hsh & Htr).
    exists n, ops. auto.
Qed.

End Handshake.

(** ** The mode table *)

Section ModeTable.

Context {hdr : Rt5670Header} {D : Type} {bus : CodecBus D}.
Variable decode_entry : byte -> byte -> byte -> byte -> byte -> Z * Z.

Lemma u8_range (b : byte) : 0 <= u8 b < 256.
Proof. unfold u8. pose proof (Byte.to_N_bounded b). lia. Qed.

Lemma lor_below (n a b : Z) :
  0 < n -> 0 <= a < 2 ^ n -> 0 <= b < 2 ^ n -> 0 <= Z.lor a b < 2 ^ n.
Proof.
  intros Hn Ha Hb.
  assert (H0 : 0 <= Z.lor a b) by (apply Z.lor_nonneg; lia).
  split; [assumption|].
  destruct (Z.eq_dec (Z.lor a b) 0) as [E|E].
  - rewrite E. apply Z.pow_pos_nonneg; lia.
  - apply Z.log2_lt_pow2; [lia|].
    rewrite Z.log2_lor by lia.
    assert (La : Z.log2 a < n).
    { destruct (Z.eq_dec a 0) as [->|]; [simpl; lia|].
      apply Z.log2_lt_pow2; lia. }
    assert (Lb : Z.log2 b < n).
    { destruct (Z.eq_dec b 0) as [->|]; [simpl; lia|].
      apply Z.log2_lt_pow2; lia. }
    lia.
Qed.

Lemma table_offset_range (hi lo : byte) : 0 <= table_offset hi lo < 2 ^ 16.
Proof.
  unfold table_offset.
  pose proof (u8_range hi). pose proof (u8_range lo).
  apply lor_below; [lia | | lia].
  rewrite Z.shiftl_mul_pow2 by lia. lia.
Qed.

Lemma fw_byte_Some (fw : firmware) (i : Z) (b : byte) :
  fw_byte fw i = Some b -> 0 <= i < size fw.
Proof.
  unfold fw_byte, size. destruct (i <? 0) eqn:E; [discriminate|].
  intros H. assert (Hn : nth_error (data fw) (Z.to_nat i) <> None) by congruence.
  apply nth_error_Some in Hn. lia.
Qed.

Lemma fw_byte_None (fw : firmware) (i : Z) :
  0 <= i -> fw_byte fw i = None -> size fw <= i.
Proof.
  unfold fw_byte, size. intros Hi. destruct (i <? 0) eqn:E; [lia|].
  intros H. apply nth_error_None in H. lia.
Qed.

(** The slot of mode [m] holds the bytes at [3m+1], [3m+2] and [3m+3]. *)
Lemma slot_bytes (fw : firmware) (m : Z) (hi lo cnt : byte) :
  0 <= m -> slot fw m = [hi; lo; cnt] ->
  fw_byte fw (m * 3 + 1) = Some hi /\
  fw_byte fw (m * 3 + 2) = Some lo /\
  fw_byte fw (m * 3 + 3) = Some cnt.
Proof.
  unfold slot, fw_byte. intros Hm Hs.
  assert (H : forall k : nat, (k < 3)%nat ->
            nth_error (data fw) (Z.to_nat (1 + 3 * m) + k) =
            nth_error [hi; lo; cnt] k).
  { intros k Hk. rewrite <- Hs, nth_error_firstn, nth_error_skipn.
    apply Nat.ltb_lt in Hk. rewrite Hk. reflexivity. }
  pose proof (H 0%nat ltac:(lia)) as H0.
  pose proof (H 1%nat ltac:(lia)) as H1.
  pose proof (H 2%nat ltac:(lia)) as H2.
  simpl in H0, H1, H2.
  replace (Z.to_nat (m * 3 + 1)) with (Z.to_nat (1 + 3 * m) + 0)%nat by lia.
  replace (Z.to_nat (m * 3 + 2)) with (Z.to_nat (1 + 3 * m) + 1)%nat by lia.
  replace (Z.to_nat (m * 3 + 3)) with (Z.to_nat (1 + 3 * m) + 2)%nat by lia.
  destruct (m * 3 + 1 <? 0) eqn:E1; [lia|].
  destruct (m * 3 + 2 <? 0) eqn:E2; [lia|].
  destruct (m * 3 + 3 <? 0) eqn:E3; [lia|].
  auto.
Qed.

(** A mode above the declared count is refused before anything else is
    read or written. *)
Lemma set_mode_with_above (fw : firmware) (mode : Z) (b0 : byte) (s : state D) :
  fw_byte fw 0 = Some b0 -> u8 b0 < mode ->
  set_mode_with decode_entry fw mode s = Ok (- EINVAL) s.
Proof.
  intros H0 Hm. unfold set_mode_with, Bind, fw_read. rewrite H0.
  destruct (mode <=? u8 b0) eqn:E; [lia | reflexivity].
Qed.

Lemma int32_small (x : Z) : - 2 ^ 31 <= x < 2 ^ 31 -> int32 x = x.
Proof.
  intros Hx. unfold int32. cbv zeta.
  destruct (Z_lt_le_dec x 0) as [Hneg|Hpos].
  - replace (x mod 2 ^ 32) with (x + 2 ^ 32)
      by (apply Z.mod_unique with (q := -1); lia).
    destruct (x + 2 ^ 32 <? 2 ^ 31) eqn:E; lia.
  - rewrite Z.mod_small by lia.
    destruct (x <? 2 ^ 31) eqn:E; lia.
Qed.

(** For a mode up to 255 the slot indices do not wrap. *)
Lemma int_index_small (mode k : Z) :
  0 <= mode <= 255 -> 0 <= k <= 3 ->
  int_add (int_mul mode 3) k = mode * 3 + k.
Proof.
  intros Hm Hk. unfold int_add, int_mul.
  rewrite (int32_small (mode * 3)) by lia.
  apply int32_small. lia.
Qed.

(** With the slot in the image, the call checks the table against the size
    of the image and replays it. *)
Lemma set_mode_with_slot (fw : firmware) (mode : Z) (b0 hi lo cnt : byte)
    (s : state D) :
  fw_byte fw 0 = Some b0 -> 0 <= mode <= u8 b0 ->
  slot fw mode = [hi; lo; cnt] ->
  set_mode_with decode_entry fw mode s =
  if table_offset hi lo + u8 cnt * 5 >? size fw then Ok (- EINVAL) s
  else rt5670_write_fw decode_entry fw (table_offset hi lo) (u8 cnt) s.
Proof.
  intros H0 Hm Hs.
  destruct (slot_bytes fw mode hi lo cnt (proj1 Hm) Hs) as (Hhi & Hlo & Hcnt).
  pose proof (u8_range b0) as Hn.
  unfold set_mode_with, Bind, fw_read. rewrite H0.
  destruct (mode <=? u8 b0) eqn:E; [|lia].
  rewrite (int_index_small mode 2), (int_index_small mode 1),
    (int_index_small mode 3) by lia.
  rewrite Hlo, Hhi, Hcnt.
  pose proof (table_offset_range hi lo) as Hr. pose proof (u8_range cnt) as Hc.
  replace (Z.lor (u8 lo) (Z.shiftl (u8 hi) 8)) with (table_offset hi lo)
    by apply Z.lor_comm.
  replace (uint32 (table_offset hi lo)) with (table_offset hi lo)
    by (symmetry; apply Z.mod_small; lia).
  replace (uint32 (table_offset hi lo + u8 cnt * 5))
    with (table_offset hi lo + u8 cnt * 5)
    by (symmetry; apply Z.mod_small; lia).
  destruct (table_offset hi lo + u8 cnt * 5 >? size fw); reflexivity.
Qed.

(** A replay whose register writes all return 0 returns 0. *)
Lemma write_fw_from_replayed (fw : firmware) (pos i : Z) (todo : nat)
    (s s' : state D) :
  replayed decode_entry fw pos i todo s s' ->
  write_fw_from decode_entry fw pos i todo s = Ok 0 s'.
Proof.
  induction 1 as [i s | i todo s s1 s' b0 b1 b2 b3 b4 H0 H1 H2 H3 H4 Hw _ IH];
    simpl; [reflexivity|].
  unfold Bind, fw_read. rewrite H0, H1, H2, H3, H4.
  destruct (decode_entry b0 b1 b2 b3 b4) as [addr val]. simpl in Hw.
  rewrite Hw. simpl. exact IH.
Qed.

Lemma set_mode_loaded (fw : firmware) (mode : Z) (s : state D) :
  rt5670_dsp_fw s = Some fw ->
  rt5670_dsp_set_mode decode_entry mode s = set_mode_with decode_entry fw mode s.
Proof. intros H. unfold rt5670_dsp_set_mode. rewrite H. reflexivity. Qed.

(** C4: with [n] the count in byte 0 of the loaded image, mode [n + 1] is
    refused with [-EINVAL] and nothing reaches the bus, while mode [n] is
    accepted: when its table lies within the image the call is the replay
    of that table, and it returns 0 when all register writes of the replay
    return 0. *)
Theorem set_mode_inclusive_bound (fw : firmware) (b0 : byte) (s : state D) :
  rt5670_dsp_fw s = Some fw -> fw_byte fw 0 = Some b0 ->
  rt5670_dsp_set_mode decode_entry (u8 b0 + 1) s = Ok (- EINVAL) s /\
  forall hi lo cnt,
    slot fw (u8 b0) = [hi; lo; cnt] ->
    table_offset hi lo + u8 cnt * 5 <= size fw ->
    rt5670_dsp_set_mode decode_entry (u8 b0) s =
      rt5670_write_fw decode_entry fw (table_offset hi lo) (u8 cnt) s /\
    forall s',
      replayed decode_entry fw (table_offset hi lo) 0 (Z.to_nat (u8 cnt)) s s' ->
      rt5670_dsp_set_mode decode_entry (u8 b0) s = Ok 0 s'.
Proof.
  intros Hfw H0. split.
  - rewrite (set_mode_loaded fw) by assumption.
    apply set_mode_with_above with (b0 := b0); [assumption | lia].
  - intros hi lo cnt Hs Hin.
    pose proof (u8_range b0) as Hn.
    assert (E : rt5670_dsp_set_mode decode_entry (u8 b0) s =
                rt5670_write_fw decode_entry fw (table_offset hi lo) (u8 cnt) s).
    { rewrite (set_mode_loaded fw) by assumption.
      rewrite (set_mode_with_slot fw (u8 b0) b0 hi lo cnt) by (auto; lia).
      destruct (table_offset hi lo + u8 cnt * 5 >? size fw) eqn:C;
        [lia | reflexivity]. }
    split; [exact E|].
    intros s' Hrep. rewrite E. unfold rt5670_write_fw.
    apply write_fw_from_replayed. assumption.
Qed.

(** C5: for a mode within the count whose slot gives a table that ends
    past the image, the call returns [-EINVAL] in the state it was called
    in: nothing is written to the bus and the replay is not entered, so no
    byte of a table is read. *)
Theorem set_mode_corrupt_table (fw : firmware) (mode : Z)
    (b0 hi lo cnt : byte) (s : state D) :
  rt5670_dsp_fw s = Some fw -> fw_byte fw 0 = Some b0 ->
  0 <= mode <= u8 b0 ->
  slot fw mode = [hi; lo; cnt] ->
  table_offset hi lo + u8 cnt * 5 > size fw ->
  rt5670_dsp_set_mode decode_entry mode s = Ok (- EINVAL) s.
Proof.
  intros Hfw H0 Hm Hs Hout.
  rewrite (set_mode_loaded fw) by assumption.
  rewrite (set_mode_with_slot fw mode b0 hi lo cnt) by assumption.
  destruct (table_offset hi lo + u8 cnt * 5 >? size fw) eqn:C;
    [reflexivity | lia].
Qed.

(** C7 (as amended): with no firmware loaded the call returns [-EINVAL] for
    every mode and leaves the bus alone; this is the very value it returns
    for a mode above the count and for a table that ends past the image. *)
Theorem set_mode_without_firmware (mode : Z) (s : state D) :
  rt5670_dsp_fw s = None ->
  rt5670_dsp_set_mode decode_entry mode s = Ok (- EINVAL) s /\
  (forall fw b0 mode1 (s1 : state D),
      rt5670_dsp_fw s1 = Some fw -> fw_byte fw 0 = Some b0 -> u8 b0 < mode1 ->
      returned (rt5670_dsp_set_mode decode_entry mode1 s1) =
      returned (rt5670_dsp_set_mode decode_entry mode s)) /\
  (forall fw b0 hi lo cnt mode2 (s2 : state D),
      rt5670_dsp_fw s2 = Some fw -> fw_byte fw 0 = Some b0 ->
      0 <= mode2 <= u8 b0 -> slot fw mode2 = [hi; lo; cnt] ->
      table_offset hi lo + u8 cnt * 5 > size fw ->
      returned (rt5670_dsp_set_mode decode_entry mode2 s2) =
      returned (rt5670_dsp_set_mode decode_entry mode s)).
Proof.
  intros Hnone.
  assert (E : rt5670_dsp_set_mode decode_entry mode s = Ok (- EINVAL) s).
  { unfold rt5670_dsp_set_mode. rewrite Hnone. reflexivity. }
  split; [exact E|]. rewrite E. split.
  - intros fw b0 mode1 s1 Hfw H0 Hm.
    rewrite (set_mode_loaded fw) by assumption.
    rewrite (set_mode_with_above fw mode1 b0) by assumption. reflexivity.
  - intros fw b0 hi lo cnt mode2 s2 Hfw H0 Hm Hs Hout.
    rewrite (set_mode_loaded fw) by assumption.
    rewrite (set_mode_with_slot fw mode2 b0 hi lo cnt) by assumption.
    destruct (table_offset hi lo + u8 cnt * 5 >? size fw) eqn:C;
      [reflexivity | lia].
Qed.

(** C8 (as amended): for a mode [m] within the count, the slot starts at
    byte [1 + 3m] and its bytes +0, +1 and +2 (bytes [3m+1], [3m+2], [3m+3]
    of the image) are the offset high byte, the offset low byte and the
    entry count: the table the call checks and replays is [tab_num] entries
    at [pos = hi << 8 | lo], a 16-bit offset. *)
Theorem set_mode_decodes_slot (fw : firmware) (m : Z)
    (b0 hi lo cnt : byte) (s : state D) :
  rt5670_dsp_fw s = Some fw -> fw_byte fw 0 = Some b0 ->
  0 <= m <= u8 b0 ->
  firstn 3 (skipn (Z.to_nat (1 + 3 * m)) (data fw)) = [hi; lo; cnt] ->
  let pos := Z.lor (Z.shiftl (u8 hi) 8) (u8 lo) in
  let tab_num := u8 cnt in
  fw_byte fw (3 * m + 1) = Some hi /\
  fw_byte fw (3 * m + 2) = Some lo /\
  fw_byte fw (3 * m + 3) = Some cnt /\
  0 <= pos < 2 ^ 16 /\
  rt5670_dsp_set_mode decode_entry m s =
    if pos + tab_num * 5 >? size fw then Ok (- EINVAL) s
    else rt5670_write_fw decode_entry fw pos tab_num s.
Proof.
  intros Hfw H0 Hm Hs pos tab_num.
  destruct (slot_bytes fw m hi lo cnt (proj1 Hm) Hs) as (Hhi & Hlo & Hcnt).
  replace (3 * m) with (m * 3) by lia.
  repeat (split; [assumption|]).
  split; [apply table_offset_range|].
  rewrite (set_mode_loaded fw) by assumption.
  apply (set_mode_with_slot fw m b0 hi lo cnt); assumption.
Qed.

(** C10: the reads of the directory slot are not checked against the size
    of the image.  When byte 0 is at least [mode] and the image has fewer
    than [3 * mode + 4] bytes, the call reads the image at an index among
    [3 * mode + 1 .. 3 * mode + 3] that lies past its end. *)
Theorem set_mode_slot_out_of_bounds (fw : firmware) (mode : Z) (b0 : byte)
    (s : state D) :
  rt5670_dsp_fw s = Some fw -> fw_byte fw 0 = Some b0 ->
  mode <= u8 b0 -> size fw < 3 * mode + 4 ->
  exists idx,
    rt5670_dsp_set_mode decode_entry mode s = OutOfBounds idx /\
    3 * mode + 1 <= idx <= 3 * mode + 3 /\
    size fw <= idx.
Proof.
  intros Hfw H0 Hm Hsz.
  pose proof (fw_byte_Some fw 0 b0 H0) as Hz.
  pose proof (u8_range b0) as Hn.
  rewrite (set_mode_loaded fw) by assumption.
  unfold set_mode_with, Bind, fw_read. rewrite H0.
  destruct (mode <=? u8 b0) eqn:E; [|lia].
  rewrite (int_index_small mode 2), (int_index_small mode 1),
    (int_index_small mode 3) by lia.
  destruct (fw_byte fw (mode * 3 + 2)) as [lo|] eqn:Hlo.
  - destruct (fw_byte fw (mode * 3 + 1)) as [hi|] eqn:Hhi.
    + destruct (fw_byte fw (mode * 3 + 3)) as [cnt|] eqn:Hcnt.
      * apply fw_byte_Some in Hcnt. lia.
      * exists (mode * 3 + 3). split; [reflexivity|].
        apply fw_byte_None in Hcnt; lia.
    + exists (mode * 3 + 1). split; [reflexivity|].
      apply fw_byte_None in Hhi; lia.
  - exists (mode * 3 + 2). split; [reflexivity|].
    apply fw_byte_None in Hlo; lia.
Qed.

End ModeTable.

(** ** Power event and firmware callback *)

Section Lifecycle.

Context {hdr : Rt5670Header} {D : Type} {bus : CodecBus D}.
Variable decode_entry : byte -> byte -> byte -> byte -> byte -> Z * Z.

Lemma find_snoc {A : Type} (p : A -> bool) (l : list A) (x : A) :
  find p (l ++ [x]) =
  match find p l with
  | Some y => Some y
  | None => if p x then Some x else None
  end.
Proof.
  induction l as [|a l IH]; simpl; [reflexivity|].
  destruct (p a); [reflexivity | exact IH].
Qed.

Lemma last_loaded_cons (cur fw : option firmware)
    (rest : list (option firmware)) :
  last_loaded cur (fw :: rest) =
  last_loaded (match fw with Some f => Some f | None => cur end) rest.
Proof.
  unfold last_loaded. simpl rev. rewrite find_snoc.
  destruct (find _ (rev rest)) as [[f|]|] eqn:E; try reflexivity.
  - apply find_some in E. destruct E as [_ E]. discriminate E.
  - destruct fw; reflexivity.
Qed.

(** C6 (as amended): the callback stores every buffer it is handed that is
    not NULL, replacing the image stored before; a NULL delivery, or the
    delivery of the image already stored, leaves the stored image as it
    is.  After a series of callbacks the stored image is the last buffer
    delivered that was not NULL. *)
Theorem fw_loaded_last_delivery_wins (fws : list (option firmware))
    (s : state D) :
  deliver fws s =
    Ok tt (mk_state (codec s) (last_loaded (rt5670_dsp_fw s) fws)
                    (dsp_sw s) (trace s)) /\
  rt5670_dsp_fw_loaded None s = Ok tt s /\
  forall fw,
    rt5670_dsp_fw_loaded (Some fw) s =
      Ok tt (mk_state (codec s) (Some fw) (dsp_sw s) (trace s)) /\
    (rt5670_dsp_fw s = Some fw -> rt5670_dsp_fw_loaded (Some fw) s = Ok tt s).
Proof.
  split; [|split; [reflexivity|]].
  - revert s. induction fws as [|fw rest IH]; intros s.
    + destruct s; reflexivity.
    + rewrite last_loaded_cons. simpl. unfold Bind.
      destruct fw as [f|]; simpl; rewrite IH; reflexivity.
  - intros fw. split; [reflexivity|].
    intros H. destruct s; simpl in *. subst. reflexivity.
Qed.

(** C9: on power-up the event sets the DSP reset bit, clears it, waits
    10 ms and then applies the requested mode, in this order and whatever
    the two register updates return.  Whatever value the mode call returns,
    also a negative one, the event returns 0; with no firmware loaded the
    mode call returns [-EINVAL] after the reset sequence and the event
    returns 0 with exactly the three reset operations on the bus. *)
Theorem dsp_event_power_up (s : state D) :
  let d1 := snd (hw_update_bits (codec s) RT5670_DIG_MISC
                                RT5670_RST_DSP RT5670_RST_DSP) in
  let d2 := snd (hw_update_bits d1 RT5670_DIG_MISC RT5670_RST_DSP 0) in
  let d3 := hw_mdelay d2 10 in
  let s3 := mk_state d3 (rt5670_dsp_fw s) (dsp_sw s)
              (trace s ++
               [ OpUpdateBits RT5670_DIG_MISC RT5670_RST_DSP RT5670_RST_DSP;
                 OpUpdateBits RT5670_DIG_MISC RT5670_RST_DSP 0;
                 OpDelay 10 ]) in
  match rt5670_dsp_set_mode decode_entry (dsp_sw s) s3 with
  | Ok r s4 =>
      rt5670_dsp_event decode_entry SND_SOC_DAPM_POST_PMU s = Ok 0 s4
  | OutOfBounds i =>
      rt5670_dsp_event decode_entry SND_SOC_DAPM_POST_PMU s = OutOfBounds i
  end /\
  (rt5670_dsp_fw s = None ->
   rt5670_dsp_set_mode decode_entry (dsp_sw s) s3 = Ok (- EINVAL) s3 /\
   rt5670_dsp_event decode_entry SND_SOC_DAPM_POST_PMU s = Ok 0 s3).
Proof.
  intros d1 d2 d3 s3.
  assert (E : rt5670_dsp_event decode_entry SND_SOC_DAPM_POST_PMU s =
              match rt5670_dsp_set_mode decode_entry (dsp_sw s) s3 with
              | Ok _ s4 => Ok 0 s4
              | OutOfBounds i => OutOfBounds i
              end).
  { subst s3 d3 d2 d1.
    unfold rt5670_dsp_event, Bind, snd_soc_update_bits, mdelay, emit.
    destruct (hw_update_bits (codec s) RT5670_DIG_MISC
                RT5670_RST_DSP RT5670_RST_DSP) as [r1 e1]. simpl.
    destruct (hw_update_bits e1 RT5670_DIG_MISC RT5670_RST_DSP 0)
      as [r2 e2]. simpl.
    repeat rewrite <- app_assoc. simpl. reflexivity. }
  split.
  - rewrite E. destruct (rt5670_dsp_set_mode _ _ _); reflexivity.
  - intros Hnone.
    assert (E3 : rt5670_dsp_set_mode decode_entry (dsp_sw s) s3
                 = Ok (- EINVAL) s3).
    { unfold rt5670_dsp_set_mode. subst s3. simpl. rewrite Hnone.
      reflexivity. }
    split; [exact E3|]. rewrite E, E3. reflexivity.
Qed.

End Lifecycle.

(** C1 (as stated) fails on a device that reports busy on eleven reads and
    ready on the twelfth: the busy bit stayed set for more than ten
    consecutive reads, and [rt5670_dsp_done] returns 0, not [-EBUSY]. *)
Lemma rt5670_dsp_done_eleven_busy_reads :
  let s := sim_state (repeat 0x20 11 ++ [0]) [] None 0 in
  status_reads (hdr := sample_header) 11 (codec s) = repeat 0x20 11 /\
  all_busy (hdr := sample_header) (repeat 0x20 11) /\
  (10 < length (repeat 0x20 11))%nat /\
  rt5670_dsp_done (hdr := sample_header) s =
    Ok 0 (mk_state (mk_sim [] []) None 0 (repeat (OpRead 0xe0) 12)) /\
  0 <> - EBUSY.
Proof.
  split; [reflexivity|]. split; [repeat constructor|].
  split; [simpl; lia|]. split; [reflexivity | discriminate].
Qed.

(** C6 (as stated) fails when the callback runs twice with two buffers: the
    second delivery replaces the image the first one stored. *)
Lemma fw_loaded_second_delivery_replaces :
  let s0 := sim_state [] [] None 0 in
  let s1 := sim_state [] [] (Some fw_corrupt) 0 in
  let s2 := sim_state [] [] (Some fw_short) 0 in
  rt5670_dsp_fw_loaded (Some fw_corrupt) s0 = Ok tt s1 /\
  rt5670_dsp_fw_loaded (Some fw_short) s1 = Ok tt s2 /\
  rt5670_dsp_fw s2 <> rt5670_dsp_fw s1.
Proof.
  split; [reflexivity|]. split; [reflexivity|]. discriminate.
Qed.

(** C7 (as stated) fails: the call with no firmware, the call with a mode
    above the count and the call on a table that ends past the image all
    return the same value, [-EINVAL]. *)
Lemma set_mode_errors_coincide :
  let not_ready :=
    rt5670_dsp_set_mode (hdr := sample_header) sample_decode 0
      (sim_state [] [] None 0) in
  let invalid_mode :=
    rt5670_dsp_set_mode (hdr := sample_header) sample_decode 2
      (sim_state [] [] (Some fw_two_modes) 0) in
  let corrupt_firmware :=
    rt5670_dsp_set_mode (hdr := sample_header) sample_decode 0
      (sim_state [] [] (Some fw_corrupt) 0) in
  returned not_ready = Some (- EINVAL) /\
  returned not_ready = returned invalid_mode /\
  returned not_ready = returned corrupt_firmware.
Proof.
  repeat split; reflexivity.
Qed.

(** C8 (as stated) fails on the two-mode image for mode 0.  The slot starts
    at byte 1; its bytes +1, +2, +3 are 7, 1, 0, which as high byte, low
    byte and count give an empty table at offset 0x0701, past the image,
    so the call would return [-EINVAL] with nothing written.  The driver
    takes bytes +0, +1, +2 (0, 7, 1) and replays the one entry at offset 7:
    it returns 0 after one register write. *)
Lemma set_mode_slot_not_as_stated :
  let s := sim_state [] [] (Some fw_two_modes) 0 in
  let as_stated :=
    if table_offset x07 x01 + u8 x00 * 5 >? size fw_two_modes
    then Ok (- EINVAL) s
    else rt5670_write_fw (hdr := sample_header) sample_decode fw_two_modes
           (table_offset x07 x01) (u8 x00) s in
  let as_coded :=
    rt5670_dsp_set_mode (hdr := sample_header) sample_decode 0 s in
  slot_as_stated fw_two_modes 0 = [x07; x01; x00] /\
  as_stated = Ok (- EINVAL) s /\
  slot fw_two_modes 0 = [x00; x07; x01] /\
  as_coded =
    Ok 0 (mk_state (mk_sim [] []) (Some fw_two_modes) 0
            [ OpWrite 0xe1 0x1234; OpWrite 0xe2 0x5678; OpWrite 0xe0 0x3bcb;
              OpRead 0xe0 ]) /\
  as_coded <> as_stated.
Proof.
  repeat split; try reflexivity. discriminate.
Qed.

(** ** The theorems at concrete inputs *)

(** Mode 2 of the two-mode image is refused; mode 1, the count itself, is
    replayed: two register writes. *)

Lemma set_mode_inclusive_bound_witness :
  let s := sim_state [] [] (Some fw_two_modes) 0 in
  rt5670_dsp_set_mode (hdr := sample_header) sample_decode 2 s
    = Ok (- EINVAL) s /\
  rt5670_dsp_set_mode (hdr := sample_header) sample_decode 1 s
    = Ok 0 (mk_state (mk_sim [] []) (Some fw_two_modes) 0
              [ OpWrite 0xe1 1; OpWrite 0xe2 2; OpWrite 0xe0 0x3bcb;
                OpRead 0xe0;
                OpWrite 0xe1 3; OpWrite 0xe2 4; OpWrite 0xe0 0x3bcb;
                OpRead 0xe0 ]).
Proof.
  intros s.
  destruct (set_mode_inclusive_bound (hdr := sample_header) sample_decode
              fw_two_modes x01 s eq_refl eq_refl) as [Habove Hn].
  split; [exact Habove|].
  assert (Hin : table_offset x00 x0c + u8 x02 * 5 <= size fw_two_modes)
    by (apply Z.leb_le; reflexivity).
  destruct (Hn x00 x0c x02 eq_refl Hin) as [_ Hrep].
  apply Hrep.
  eapply replayed_entry; [reflexivity .. | lazy; reflexivity | ].
  eapply replayed_entry; [reflexivity .. | lazy; reflexivity | ].
  apply replayed_done.
Defined.

(** Mode 0 of [fw_corrupt]: offset 4, one entry, 9 > 6 bytes. *)
Lemma set_mode_corrupt_table_witness :
  let s := sim_state [] [] (Some fw_corrupt) 0 in
  rt5670_dsp_set_mode (hdr := sample_header) sample_decode 0 s
    = Ok (- EINVAL) s.
Proof.
  intros s.
  apply (set_mode_corrupt_table (hdr := sample_header) sample_decode
           fw_corrupt 0 x00 x00 x04 x01 s eq_refl eq_refl).
  - split; apply Z.leb_le; reflexivity.
  - reflexivity.
  - reflexivity.
Defined.

(** No firmware, requested mode 3. *)
Lemma set_mode_without_firmware_witness :
  let s := sim_state [] [] None 3 in
  rt5670_dsp_set_mode (hdr := sample_header) sample_decode 3 s
    = Ok (- EINVAL) s.
Proof.
  intros s.
  exact (proj1 (set_mode_without_firmware (hdr := sample_header)
                  sample_decode 3 s eq_refl)).
Defined.

(** Mode 1 of the two-mode image: slot bytes 0, 12, 2 at indices 4, 5, 6. *)
Lemma set_mode_decodes_slot_witness :
  let s := sim_state [] [] (Some fw_two_modes) 0 in
  fw_byte fw_two_modes 4 = Some x00 /\
  fw_byte fw_two_modes 5 = Some x0c /\
  fw_byte fw_two_modes 6 = Some x02 /\
  0 <= 12 < 2 ^ 16 /\
  rt5670_dsp_set_mode (hdr := sample_header) sample_decode 1 s =
    rt5670_write_fw (hdr := sample_header) sample_decode fw_two_modes 12 2 s.
Proof.
  intros s.
  apply (set_mode_decodes_slot (hdr := sample_header) sample_decode
           fw_two_modes 1 x01 x00 x0c x02 s eq_refl eq_refl).
  - split; apply Z.leb_le; reflexivity.
  - reflexivity.
Defined.

(** Mode 1 of [fw_short]: the slot would be bytes 4, 5, 6 of a 6-byte
    image. *)
Lemma set_mode_slot_out_of_bounds_witness :
  let s := sim_state [] [] (Some fw_short) 0 in
  exists idx,
    rt5670_dsp_set_mode (hdr := sample_header) sample_decode 1 s
      = OutOfBounds idx /\
    3 * 1 + 1 <= idx <= 3 * 1 + 3 /\
    size fw_short <= idx.
Proof.
  intros s.
  apply (set_mode_slot_out_of_bounds (hdr := sample_header) sample_decode
           fw_short 1 x01 s eq_refl eq_refl).
  - apply Z.leb_le; reflexivity.
  - reflexivity.
Defined.

(** * Further properties of the handshake *)

Section HandshakeTraffic.

Context {hdr : Rt5670Header} {D : Type} {bus : CodecBus D}.

Lemma status_reads_length (k : nat) : forall d : D,
  length (status_reads k d) = k.
Proof.
  induction k as [|k IH]; intros d; simpl; [reflexivity|].
  destruct (hw_read d RT5670_DSP_CTRL1) as [v d']. simpl.
  rewrite IH. reflexivity.
Qed.

Lemma busy_run_all (vs : list Z) : all_busy vs -> busy_run vs = length vs.
Proof.
  induction 1 as [|v vs Hv _ IH]; simpl; [reflexivity|].
  rewrite Hv, IH. reflexivity.
Qed.

Lemma all_busy_firstn (n : nat) : forall vs : list Z,
  all_busy vs -> all_busy (firstn n vs).
Proof.
  induction n as [|n IH]; intros vs H; simpl; [constructor|].
  destruct H as [|v vs Hv H]; constructor; [exact Hv | apply IH; exact H].
Qed.

Lemma busy_run_full (vs : list Z) :
  (length vs <= busy_run vs)%nat -> all_busy vs.
Proof.
  induction vs as [|v vs IH]; simpl; intros H; [constructor|].
  destruct (dsp_busy v) eqn:Hb; [|lia].
  constructor; [exact Hb | apply IH; lia].
Qed.

(** The loop re-reads once for every leading busy value among the current
    one and the next [k - 1]. *)
Lemma poll_count (k : nat) : forall (dsp_val : Z) (s : state D),
  exists r s',
    poll k dsp_val s = Ok r s' /\
    polled (busy_run (firstn k (dsp_val :: status_reads k (codec s)))) s s'.
Proof.
  induction k as [|k IH]; intros dsp_val s.
  - simpl. destruct (dsp_busy dsp_val); eexists _, _;
      (split; [reflexivity | apply polled_refl]).
  - cbn [poll firstn busy_run].
    destruct (dsp_busy dsp_val) eqn:Hb.
    + unfold snd_soc_read at 1. cbn [status_reads].
      destruct (hw_read (codec s) RT5670_DSP_CTRL1) as [v d] eqn:Hrd.
      destruct (IH (uint32 v) (emit s d (OpRead RT5670_DSP_CTRL1)))
        as (r & s' & Hp & Hpol).
      exists r, s'. split; [exact Hp|].
      apply polled_read with (s1 := emit s d (OpRead RT5670_DSP_CTRL1))
                             (v := uint32 v).
      * unfold snd_soc_read. rewrite Hrd. reflexivity.
      * cbn [firstn] in Hpol. exact Hpol.
    + eexists _, _. split; [reflexivity | apply polled_refl].
Qed.

(** [rt5670_dsp_done] stops at the first read that shows the DSP ready: it
    makes one read more than there are leading busy values among the first
    eleven, and nothing else reaches the bus. *)
Lemma rt5670_dsp_done_read_count_aux (s : state D) :
  exists r s',
    rt5670_dsp_done s = Ok r s' /\
    polled (S (busy_run (firstn 11 (status_reads 12 (codec s))))) s s'.
Proof.
  unfold rt5670_dsp_done, Bind.
  unfold snd_soc_read at 1.
  change (status_reads 12 (codec s))
    with (let (v, d') := hw_read (codec s) RT5670_DSP_CTRL1 in
          uint32 v :: status_reads 11 d').
  destruct (hw_read (codec s) RT5670_DSP_CTRL1) as [v d] eqn:Hrd.
  rewrite dsp_done_loop_poll. change (polls_left 0) with 11%nat.
  destruct (poll_count 11 (uint32 v) (emit s d (OpRead RT5670_DSP_CTRL1)))
    as (r & s' & Hp & Hpol).
  exists r, s'. split; [exact Hp|].
  apply polled_read with (s1 := emit s d (OpRead RT5670_DSP_CTRL1))
                         (v := uint32 v).
  - unfold snd_soc_read. rewrite Hrd. reflexivity.
  - exact Hpol.
Qed.

(** [rt5670_dsp_done] stops at the first read that shows the DSP ready: it
    makes one read more than there are leading busy values among the first
    eleven, nothing else reaches the bus, and it returns 0 unless all
    twelve values are busy. *)
Theorem rt5670_dsp_done_read_count (s : state D) :
  exists r s',
    rt5670_dsp_done s = Ok r s' /\
    polled (S (busy_run (firstn 11 (status_reads 12 (codec s))))) s s' /\
    (r = 0 <-> (busy_run (status_reads 12 (codec s)) < 12)%nat).
Proof.
  destruct (rt5670_dsp_done_read_count_aux s) as (r & s' & E & Hpol).
  exists r, s'. split; [exact E|]. split; [exact Hpol|].
  destruct (rt5670_dsp_done_spec s) as (r' & s'' & j & E' & Hr & Hiff & _).
  rewrite E in E'. inversion E'; subst r' s''; clear E'.
  pose proof (status_reads_length 12 (codec s)) as Hlen.
  split.
  - intros H0.
    destruct (Nat.lt_ge_cases (busy_run (status_reads 12 (codec s))) 12)
      as [Hlt|Hge]; [exact Hlt|].
    exfalso.
    assert (Hall : all_busy (status_reads 12 (codec s))).
    { apply busy_run_full. lia. }
    apply Hiff in Hall. rewrite H0 in Hall. discriminate Hall.
  - intros Hlt. destruct Hr as [Hr|Hr]; [exact Hr|].
    apply Hiff in Hr. apply busy_run_all in Hr. lia.
Qed.

Lemma rt5670_dsp_done_busy (s : state D) :
  all_busy (status_reads 12 (codec s)) ->
  exists s', rt5670_dsp_done s = Ok (- EBUSY) s' /\ polled 12 s s'.
Proof.
  intros Hbusy.
  destruct (rt5670_dsp_done_spec s) as (r & s' & j & E & _ & Hiff & _ & _).
  destruct (rt5670_dsp_done_read_count_aux s) as (r' & s'' & E' & Hpol).
  rewrite E in E'. inversion E'; subst r' s''; clear E'.
  assert (Hr : r = - EBUSY) by (apply Hiff; exact Hbusy).
  exists s'. rewrite E, Hr. split; [reflexivity|].
  assert (Hrun : busy_run (firstn 11 (status_reads 12 (codec s))) = 11%nat).
  { rewrite busy_run_all.
    - rewrite length_firstn, status_reads_length. reflexivity.
    - apply all_busy_firstn. exact Hbusy. }
  rewrite Hrun in Hpol. exact Hpol.
Qed.

(** A DSP that stays busy is never written to by a register read: the
    read gives up after the twelve status reads of its first wait and
    returns [-EBUSY] as [unsigned int]. *)
Theorem rt5670_dsp_read_busy (reg : Z) (s : state D) :
  all_busy (status_reads 12 (codec s)) ->
  exists s',
    rt5670_dsp_read reg s = Ok (2 ^ 32 - EBUSY) s' /\
    polled 12 s s'.
Proof.
  intros Hbusy.
  destruct (rt5670_dsp_done_busy s Hbusy) as (s' & E & Hpol).
  exists s'. split; [|exact Hpol].
  unfold rt5670_dsp_read, Bind. rewrite E. reflexivity.
Qed.

(** A register write does not look at the busy bit before it starts: when
    the three bus writes succeed and the DSP then stays busy, the address,
    the data and the command have all been written by the time the call
    returns [-EBUSY], after twelve status reads. *)
Theorem rt5670_dsp_write_busy (addr data : Z) (s : state D) :
  let s1 := after_write s RT5670_DSP_CTRL2 addr in
  let s2 := after_write s1 RT5670_DSP_CTRL3 data in
  let s3 := after_write s2 RT5670_DSP_CTRL1 dsp_cmd_mw in
  0 <= write_ret s RT5670_DSP_CTRL2 addr ->
  0 <= write_ret s1 RT5670_DSP_CTRL3 data ->
  0 <= write_ret s2 RT5670_DSP_CTRL1 dsp_cmd_mw ->
  all_busy (status_reads 12 (codec s3)) ->
  exists s',
    rt5670_dsp_write addr data s = Ok (- EBUSY) s' /\
    trace s' =
      trace s ++
      [ OpWrite RT5670_DSP_CTRL2 addr;
        OpWrite RT5670_DSP_CTRL3 data;
        OpWrite RT5670_DSP_CTRL1 dsp_cmd_mw ] ++
      repeat (OpRead RT5670_DSP_CTRL1) 12.
Proof.
  intros s1 s2 s3 H1 H2 H3 Hbusy.
  destruct (rt5670_dsp_done_busy s3 Hbusy) as (s' & E & _ & _ & Htr).
  exists s'. split.
  - unfold rt5670_dsp_write, Bind.
    assert (W : forall t reg val,
               snd_soc_write reg val t =
               Ok (write_ret t reg val) (after_write t reg val)).
    { intros t reg val. unfold snd_soc_write, write_ret, after_write.
      destruct (hw_write (codec t) reg val); reflexivity. }
    rewrite W. fold s1.
    destruct (write_ret s RT5670_DSP_CTRL2 addr <? 0) eqn:C1; [lia|].
    rewrite W. fold s2.
    destruct (write_ret s1 RT5670_DSP_CTRL3 data <? 0) eqn:C2; [lia|].
    cbv zeta. rewrite W. fold s3.
    destruct (write_ret s2 RT5670_DSP_CTRL1 dsp_cmd_mw <? 0) eqn:C3; [lia|].
    rewrite E. reflexivity.
  - rewrite Htr. subst s3 s2 s1. unfold after_write, emit. cbn [trace].
    repeat rewrite <- app_assoc. reflexivity.
Qed.

(** ** Bounds on the bus traffic *)

Lemma shaped_length (l : list step) (ops : list bus_op) :
  shaped l ops -> (min_ops l <= length ops <= max_ops l)%nat.
Proof.
  induction 1 as [| l ops j Hj _ IH | l ops reg val _ IH]; simpl.
  - lia.
  - rewrite length_app, repeat_length. lia.
  - lia.
Qed.

Lemma max_ops_firstn (n : nat) : forall l : list step,
  (max_ops (firstn n l) <= max_ops l)%nat.
Proof.
  induction n as [|n IH]; intros l; simpl; [lia|].
  destruct l as [|[|reg val] l]; simpl; [lia | |];
    specialize (IH l); lia.
Qed.

(** A run adds at most [max_ops] operations to the trace, and at least
    [min_ops] when it completes. *)
Lemma exec_traffic (l : list step) (s : state D) o s' :
  exec l s o s' ->
  rt5670_dsp_fw s' = rt5670_dsp_fw s /\
  dsp_sw s' = dsp_sw s /\
  exists ops,
    trace s' = trace s ++ ops /\
    (length ops <= max_ops l)%nat /\
    (o = Completed -> (min_ops l <= length ops)%nat).
Proof.
  intros Hex. apply exec_shaped in Hex.
  destruct Hex as (Hfw & Hsw & n & ops & Hn & Hc & Hsh & Htr).
  split; [exact Hfw|]. split; [exact Hsw|].
  exists ops. split; [exact Htr|].
  apply shaped_length in Hsh. pose proof (max_ops_firstn n l). split.
  - lia.
  - intros Ho. rewrite (Hc Ho), firstn_all in Hsh. lia.
Qed.

Lemma exec_write_sequence_traffic (addr data : Z) (s : state D) o s' :
  exec (write_sequence addr data) s o s' ->
  exists ops,
    trace s' = trace s ++ OpWrite RT5670_DSP_CTRL2 addr :: ops /\
    (length ops <= 14)%nat /\
    (o = Completed -> (3 <= length ops)%nat) /\
    rt5670_dsp_fw s' = rt5670_dsp_fw s /\
    dsp_sw s' = dsp_sw s.
Proof.
  intros Hex.
  destruct (snd_soc_write_total RT5670_DSP_CTRL2 addr s)
    as (r1 & s1 & E1 & Hfw1 & Hsw1 & Htr1).
  unfold write_sequence in Hex.
  inversion Hex as [| st l s0 err s0' E Hneg | st l s0 r0 sm o0 s0' E Hpos Hrest];
    subst; simpl in E; rewrite E1 in E; inversion E; subst; clear E.
  - exists []. rewrite Htr1. split; [reflexivity|]. split; [simpl; lia|].
    split; [intros Ho; discriminate Ho|]. split; assumption.
  - apply exec_traffic in Hrest.
    destruct Hrest as (Hfw & Hsw & ops & Htr & Hmax & Hmin).
    exists ops.
    split; [rewrite Htr, Htr1, <- app_assoc; reflexivity|].
    simpl in Hmax, Hmin. split; [lia|]. split; [exact Hmin|].
    split; congruence.
Qed.

(** A register write starts with the address write whatever the state of
    the DSP (it does not wait for the DSP first), adds at most 14 further
    bus operations, at least 3 of them when it returns 0, and leaves the
    firmware pointer and the requested mode alone. *)
Theorem rt5670_dsp_write_traffic (addr data : Z) (s : state D) :
  exists r s' ops,
    rt5670_dsp_write addr data s = Ok r s' /\
    trace s' = trace s ++ OpWrite RT5670_DSP_CTRL2 addr :: ops /\
    (length ops <= 14)%nat /\
    (r = 0 -> (3 <= length ops)%nat) /\
    rt5670_dsp_fw s' = rt5670_dsp_fw s /\
    dsp_sw s' = dsp_sw s.
Proof.
  destruct (rt5670_dsp_write_total addr data s) as (o & s' & Hex & Hw).
  destruct (exec_write_sequence_traffic _ _ _ _ _ Hex)
    as (ops & Htr & Hmax & Hmin & Hfw & Hsw).
  exists (ret_of o), s', ops. repeat (split; [assumption|]).
  split; [|split; assumption].
  intros H0. apply Hmin.
  destruct (exec_ret_of _ _ _ _ Hex) as [[Ho _]|Hlt]; [exact Ho | lia].
Qed.

(** A register read starts with a read of the command/status register,
    adds at most 54 further bus operations, and leaves the firmware pointer
    and the requested mode alone. *)
Theorem rt5670_dsp_read_traffic (reg : Z) (s : state D) :
  exists r s' ops,
    rt5670_dsp_read reg s = Ok r s' /\
    trace s' = trace s ++ OpRead RT5670_DSP_CTRL1 :: ops /\
    (length ops <= 54)%nat /\
    rt5670_dsp_fw s' = rt5670_dsp_fw s /\
    dsp_sw s' = dsp_sw s.
Proof.
  destruct (run_steps_exec (read_sequence reg) s) as (o & s1 & Hex & Hrun).
  destruct (rt5670_dsp_done_spec s)
    as (r0 & s0 & j & E0 & _ & _ & Hj & Hfw0 & Hsw0 & Htr0).
  destruct j as [|j]; [lia|]. simpl in Htr0.
  assert (Hpre : rt5670_dsp_fw s1 = rt5670_dsp_fw s /\
                 dsp_sw s1 = dsp_sw s /\
                 exists ops, trace s1 = trace s ++ OpRead RT5670_DSP_CTRL1 :: ops
                             /\ (length ops <= 53)%nat).
  { unfold read_sequence in Hex.
    inversion Hex
      as [| st l sa err sa' E Hneg | st l sa ra sm oa sa' E Hpos Hrest];
      subst; simpl in E; rewrite E0 in E; inversion E; subst; clear E.
    - split; [exact Hfw0|]. split; [exact Hsw0|].
      exists (repeat (OpRead RT5670_DSP_CTRL1) j). split; [exact Htr0|].
      rewrite repeat_length. lia.
    - apply exec_traffic in Hrest.
      destruct Hrest as (Hfw & Hsw & ops & Htr & Hmax & _).
      split; [congruence|]. split; [congruence|].
      exists (repeat (OpRead RT5670_DSP_CTRL1) j ++ ops). split.
      + rewrite Htr, Htr0, <- app_assoc. reflexivity.
      + rewrite length_app, repeat_length. simpl in Hmax. lia. }
  destruct Hpre as (Hfw & Hsw & ops & Htr & Hlen).
  rewrite rt5670_dsp_read_steps, Hrun.
  destruct o as [|err]; simpl.
  - unfold snd_soc_read.
    destruct (hw_read (codec s1) RT5670_DSP_CTRL5) as [v d].
    eexists _, _, (ops ++ [OpRead RT5670_DSP_CTRL5]).
    split; [reflexivity|]. simpl. rewrite Htr, <- app_assoc. simpl.
    split; [reflexivity|]. rewrite length_app. simpl.
    repeat split; auto; lia.
  - pose proof (exec_failed_neg _ _ _ _ Hex) as Hneg.
    destruct (err <? 0) eqn:E; [|lia].
    eexists _, _, ops. split; [reflexivity|]. repeat split; auto; lia.
Qed.

(** ** What a register read returns on failure *)

Lemma int32_range (x : Z) : - 2 ^ 31 <= int32 x < 2 ^ 31.
Proof.
  unfold int32. cbv zeta.
  assert (H : 0 <= x mod 2 ^ 32 < 2 ^ 32) by (apply Z.mod_pos_bound; lia).
  destruct (x mod 2 ^ 32 <? 2 ^ 31) eqn:E; lia.
Qed.

Lemma run_step_range (st : step) (s : state D) r s' :
  run_step st s = Ok r s' -> - 2 ^ 31 <= r < 2 ^ 31.
Proof.
  destruct st as [|reg val]; simpl.
  - destruct (rt5670_dsp_done_spec s) as (r0 & s0 & j & E & Hr & _).
    rewrite E. intros H. inversion H; subst.
    destruct Hr as [-> | ->]; unfold EBUSY; lia.
  - unfold snd_soc_write. destruct (hw_write (codec s) reg val) as [r0 d].
    intros H. inversion H; subst. apply int32_range.
Qed.

Lemma exec_failed_range (l : list step) (s : state D) err s' :
  exec l s (Failed err) s' -> - 2 ^ 31 <= err < 0.
Proof.
  intros H. remember (Failed err) as o eqn:Ho.
  induction H as [s | st l s e s' E Hneg | st l s r sm o s' E Hpos H IH].
  - discriminate Ho.
  - inversion Ho; subst. apply run_step_range in E. lia.
  - apply IH. exact Ho.
Qed.

(** The value a register read returns tells a failed handshake from a
    completed one only by its top bit: a failure returns [2^32 + err],
    which is at least [2^31], so a value below [2^31] is always the value
    read back from the data register after all ten steps completed. *)
Theorem rt5670_dsp_read_error_values (reg : Z) (s : state D) :
  exists r s',
    rt5670_dsp_read reg s = Ok r s' /\
    0 <= r < 2 ^ 32 /\
    (forall err s1,
        exec (read_sequence reg) s (Failed err) s1 ->
        r = 2 ^ 32 + err /\ 2 ^ 31 <= r /\ s' = s1) /\
    (r < 2 ^ 31 ->
     exists s1 v d,
       exec (read_sequence reg) s Completed s1 /\
       hw_read (codec s1) RT5670_DSP_CTRL5 = (v, d) /\
       r = uint32 v /\
       s' = emit s1 d (OpRead RT5670_DSP_CTRL5)).
Proof.
  destruct (run_steps_exec (read_sequence reg) s) as (o & s1 & Hex & Hrun).
  rewrite rt5670_dsp_read_steps, Hrun.
  assert (Hu : forall x, 0 <= uint32 x < 2 ^ 32)
    by (intros x; apply Z.mod_pos_bound; lia).
  destruct o as [|err]; cbn [ret_of].
  - change (0 <? 0) with false. cbv iota. unfold snd_soc_read.
    destruct (hw_read (codec s1) RT5670_DSP_CTRL5) as [v d] eqn:Hrd.
    eexists _, _. split; [reflexivity|]. split; [apply Hu|]. split.
    + intros err sf Hf.
      destruct (exec_deterministic _ _ _ _ _ _ Hex Hf) as [Ho _].
      discriminate Ho.
    + intros _. exists s1, v, d. auto.
  - pose proof (exec_failed_range _ _ _ _ Hex) as Hrange.
    destruct (err <? 0) eqn:E; [|lia].
    assert (Hval : uint32 err = 2 ^ 32 + err).
    { unfold uint32. symmetry. apply Z.mod_unique with (q := -1); lia. }
    eexists _, _. split; [reflexivity|]. split; [apply Hu|]. split.
    + intros err' sf Hf.
      destruct (exec_deterministic _ _ _ _ _ _ Hex Hf) as [Ho Hs].
      inversion Ho; subst. rewrite Hval. repeat split; lia.
    + intros Hlt. rewrite Hval in Hlt. lia.
Qed.

End HandshakeTraffic.

(** * Further properties of the mode table *)

Section ModeTableEdges.

Context {hdr : Rt5670Header} {D : Type} {bus : CodecBus D}.
Variable decode_entry : byte -> byte -> byte -> byte -> byte -> Z * Z.

Lemma firstn3_skipn {A : Type} (k : nat) : forall (l : list A) (a b c : A),
  nth_error l k = Some a ->
  nth_error l (k + 1) = Some b ->
  nth_error l (k + 2) = Some c ->
  firstn 3 (skipn k l) = [a; b; c].
Proof.
  induction k as [|k IH]; intros l a b c Ha Hb Hc.
  - destruct l as [|x [|y [|z l]]]; simpl in *; try discriminate.
    congruence.
  - destruct l as [|x l]; simpl in *; [discriminate|].
    apply IH; assumption.
Qed.

Lemma fw_byte_in (fw : firmware) (i : Z) :
  0 <= i < size fw -> exists b, fw_byte fw i = Some b.
Proof.
  unfold fw_byte, size. intros Hi.
  destruct (i <? 0) eqn:E; [lia|].
  destruct (nth_error (data fw) (Z.to_nat i)) as [b|] eqn:Hn;
    [exists b; reflexivity|].
  apply nth_error_None in Hn. lia.
Qed.

(** An image of at least [3 * mode + 4] bytes holds the slot of [mode]. *)
Lemma slot_in_image (fw : firmware) (mode : Z) :
  0 <= mode -> 3 * mode + 4 <= size fw ->
  exists hi lo cnt, slot fw mode = [hi; lo; cnt].
Proof.
  intros Hm Hsz.
  destruct (fw_byte_in fw (3 * mode + 1) ltac:(lia)) as [hi Hhi].
  destruct (fw_byte_in fw (3 * mode + 2) ltac:(lia)) as [lo Hlo].
  destruct (fw_byte_in fw (3 * mode + 3) ltac:(lia)) as [cnt Hcnt].
  exists hi, lo, cnt. unfold slot, fw_byte in *.
  destruct (3 * mode + 1 <? 0) eqn:E1; [lia|].
  destruct (3 * mode + 2 <? 0) eqn:E2; [lia|].
  destruct (3 * mode + 3 <? 0) eqn:E3; [lia|].
  apply firstn3_skipn.
  - replace (Z.to_nat (1 + 3 * mode)) with (Z.to_nat (3 * mode + 1)) by lia.
    exact Hhi.
  - replace (Z.to_nat (1 + 3 * mode) + 1)%nat
      with (Z.to_nat (3 * mode + 2)) by lia.
    exact Hlo.
  - replace (Z.to_nat (1 + 3 * mode) + 2)%nat
      with (Z.to_nat (3 * mode + 3)) by lia.
    exact Hcnt.
Qed.

Lemma int_add_mul (a b k : Z) : int_add (int_mul a b) k = int32 (a * b + k).
Proof.
  unfold int_add, int_mul.
  assert (H : forall x, int32 x = int32 (uint32 x)).
  { intros x. unfold int32, uint32. cbv zeta.
    rewrite Z.mod_mod by lia. reflexivity. }
  rewrite (H (int32 (a * b) + k)), (H (a * b + k)). f_equal.
  unfold uint32.
  rewrite <- Zplus_mod_idemp_l.
  change (int32 (a * b) mod 2 ^ 32) with (uint32 (int32 (a * b))).
  rewrite uint32_int32. unfold uint32.
  rewrite Zplus_mod_idemp_l. reflexivity.
Qed.

Lemma set_mode_with_negative (fw : firmware) (mode : Z) (b0 : byte)
    (s : state D) :
  fw_byte fw 0 = Some b0 -> - 715827883 <= mode < 0 ->
  set_mode_with decode_entry fw mode s = OutOfBounds (mode * 3 + 2).
Proof.
  intros H0 Hm. pose proof (u8_range b0) as Hn.
  unfold set_mode_with, Bind, fw_read. rewrite H0.
  destruct (mode <=? u8 b0) eqn:E; [|lia].
  rewrite int_add_mul, int32_small by lia.
  unfold fw_byte at 1.
  destruct (mode * 3 + 2 <? 0) eqn:E2; [reflexivity | lia].
Qed.

(** The mode check has no lower bound: with a firmware image loaded, a
    negative mode passes [mode <= n], and as long as the index
    [mode * 3 + 2] does not wrap as an [int], that is for
    [-715827883 <= mode < 0], the call reads the image at that negative
    index, before its first byte. *)
Theorem set_mode_negative_mode (fw : firmware) (mode : Z) (b0 : byte)
    (s : state D) :
  rt5670_dsp_fw s = Some fw -> fw_byte fw 0 = Some b0 ->
  - 715827883 <= mode < 0 ->
  rt5670_dsp_set_mode decode_entry mode s = OutOfBounds (mode * 3 + 2) /\
  - 2 ^ 31 <= mode * 3 + 2 < 0.
Proof.
  intros Hfw H0 Hm. split; [|lia].
  rewrite (set_mode_loaded decode_entry fw) by assumption.
  apply set_mode_with_negative with (b0 := b0); assumption.
Qed.

(** An image of at least [3 * mode + 4] bytes is long enough for the slot
    of a mode within the count: the call reads no byte outside the image
    before the table check, and it is the check followed by the replay of
    the table the slot names. *)
Theorem set_mode_directory_in_image (fw : firmware) (mode : Z) (b0 : byte)
    (s : state D) :
  rt5670_dsp_fw s = Some fw -> fw_byte fw 0 = Some b0 ->
  0 <= mode <= u8 b0 -> 3 * mode + 4 <= size fw ->
  exists hi lo cnt,
    slot fw mode = [hi; lo; cnt] /\
    rt5670_dsp_set_mode decode_entry mode s =
      if table_offset hi lo + u8 cnt * 5 >? size fw then Ok (- EINVAL) s
      else rt5670_write_fw decode_entry fw (table_offset hi lo) (u8 cnt) s.
Proof.
  intros Hfw H0 Hm Hsz.
  destruct (slot_in_image fw mode (proj1 Hm) Hsz) as (hi & lo & cnt & Hs).
  exists hi, lo, cnt. split; [exact Hs|].
  rewrite (set_mode_loaded decode_entry fw) by assumption.
  apply (set_mode_with_slot decode_entry fw mode b0 hi lo cnt); assumption.
Qed.

Lemma slot_of_bytes (fw : firmware) (mode : Z) (hi lo cnt : byte) :
  0 <= mode ->
  fw_byte fw (mode * 3 + 1) = Some hi ->
  fw_byte fw (mode * 3 + 2) = Some lo ->
  fw_byte fw (mode * 3 + 3) = Some cnt ->
  slot fw mode = [hi; lo; cnt].
Proof.
  intros Hm Hhi Hlo Hcnt. unfold slot, fw_byte in *.
  destruct (mode * 3 + 1 <? 0) eqn:E1; [lia|].
  destruct (mode * 3 + 2 <? 0) eqn:E2; [lia|].
  destruct (mode * 3 + 3 <? 0) eqn:E3; [lia|].
  apply firstn3_skipn.
  - replace (Z.to_nat (1 + 3 * mode)) with (Z.to_nat (mode * 3 + 1)) by lia.
    exact Hhi.
  - replace (Z.to_nat (1 + 3 * mode) + 1)%nat
      with (Z.to_nat (mode * 3 + 2)) by lia.
    exact Hlo.
  - replace (Z.to_nat (1 + 3 * mode) + 2)%nat
      with (Z.to_nat (mode * 3 + 3)) by lia.
    exact Hcnt.
Qed.

(** With a firmware image loaded, a call ends in one of three ways: it
    reads the image out of bounds at index 0 or at one of the three slot
    indices [mode * 3 + k] (computed on [int]); or it returns [-EINVAL] in
    the state it was called in; or the mode is at most the count, the three
    slot bytes and the table they name lie within the image, and the call
    is the replay of that table.  So the bus is reached only through the
    replay of a table that passed the check.  For a mode from 0 the bytes
    are those of the mode's slot. *)
Theorem set_mode_outcomes (fw : firmware) (mode : Z) (s : state D) :
  rt5670_dsp_fw s = Some fw ->
  (exists idx,
      rt5670_dsp_set_mode decode_entry mode s = OutOfBounds idx /\
      (idx < 0 \/ size fw <= idx) /\
      (idx = 0 \/
       exists k, 1 <= k <= 3 /\ idx = int_add (int_mul mode 3) k)) \/
  rt5670_dsp_set_mode decode_entry mode s = Ok (- EINVAL) s \/
  (exists b0 hi lo cnt,
      fw_byte fw 0 = Some b0 /\ mode <= u8 b0 /\
      fw_byte fw (int_add (int_mul mode 3) 1) = Some hi /\
      fw_byte fw (int_add (int_mul mode 3) 2) = Some lo /\
      fw_byte fw (int_add (int_mul mode 3) 3) = Some cnt /\
      (0 <= mode -> slot fw mode = [hi; lo; cnt]) /\
      table_offset hi lo + u8 cnt * 5 <= size fw /\
      rt5670_dsp_set_mode decode_entry mode s =
        rt5670_write_fw decode_entry fw (table_offset hi lo) (u8 cnt) s).
Proof.
  intros Hfw. rewrite (set_mode_loaded decode_entry fw) by assumption.
  assert (Hoob : forall i, fw_byte fw i = None -> i < 0 \/ size fw <= i).
  { intros i Hi. destruct (Z_lt_le_dec i 0) as [Hneg|Hpos]; [left; exact Hneg|].
    right. apply fw_byte_None; assumption. }
  unfold set_mode_with, Bind, fw_read.
  destruct (fw_byte fw 0) as [b0|] eqn:H0.
  2:{ left. exists 0. split; [reflexivity|]. split; [auto | left; reflexivity]. }
  destruct (mode <=? u8 b0) eqn:E; [|right; left; reflexivity].
  destruct (fw_byte fw (int_add (int_mul mode 3) 2)) as [lo|] eqn:Hlo.
  2:{ left. eexists. split; [reflexivity|]. split; [auto|].
      right. exists 2. split; [lia | reflexivity]. }
  destruct (fw_byte fw (int_add (int_mul mode 3) 1)) as [hi|] eqn:Hhi.
  2:{ left. eexists. split; [reflexivity|]. split; [auto|].
      right. exists 1. split; [lia | reflexivity]. }
  destruct (fw_byte fw (int_add (int_mul mode 3) 3)) as [cnt|] eqn:Hcnt.
  2:{ left. eexists. split; [reflexivity|]. split; [auto|].
      right. exists 3. split; [lia | reflexivity]. }
  pose proof (table_offset_range hi lo) as Hr. pose proof (u8_range cnt) as Hc.
  pose proof (u8_range b0) as Hn.
  replace (Z.lor (u8 lo) (Z.shiftl (u8 hi) 8)) with (table_offset hi lo)
    by apply Z.lor_comm.
  replace (uint32 (table_offset hi lo)) with (table_offset hi lo)
    by (symmetry; apply Z.mod_small; lia).
  replace (uint32 (table_offset hi lo + u8 cnt * 5))
    with (table_offset hi lo + u8 cnt * 5)
    by (symmetry; apply Z.mod_small; lia).
  destruct (table_offset hi lo + u8 cnt * 5 >? size fw) eqn:C.
  - right. left. reflexivity.
  - right. right. exists b0, hi, lo, cnt.
    split; [reflexivity|]. split; [lia|].
    do 3 (split; [reflexivity|]).
    split; [|split; [lia | reflexivity]].
    intros Hpos. apply slot_of_bytes; [exact Hpos | | |].
    + rewrite <- (int_index_small mode 1) by lia. exact Hhi.
    + rewrite <- (int_index_small mode 2) by lia. exact Hlo.
    + rewrite <- (int_index_small mode 3) by lia. exact Hcnt.
Qed.

End ModeTableEdges.

(** * Further properties of the events, the control and the probe *)

Section LifecycleMore.

Context {hdr : Rt5670Header} {D : Type} {bus : CodecBus D}.
Variable decode_entry : byte -> byte -> byte -> byte -> byte -> Z * Z.
Variable dsp_sw_type : Z -> Z.

Lemma snd_soc_update_bits_after (reg mask val : Z) (s : state D) :
  exists r, snd_soc_update_bits reg mask val s =
            Ok r (after_update_bits s reg mask val).
Proof.
  unfold snd_soc_update_bits, after_update_bits.
  destruct (hw_update_bits (codec s) reg mask val) as [r d].
  exists (int32 r). reflexivity.
Qed.

(** The power-up event as the reset sequence followed by the mode call. *)
Lemma dsp_event_power_up_unfold (s : state D) :
  rt5670_dsp_event decode_entry SND_SOC_DAPM_POST_PMU s =
  match rt5670_dsp_set_mode decode_entry (dsp_sw s) (power_up_reset s) with
  | Ok _ s4 => Ok 0 s4
  | OutOfBounds i => OutOfBounds i
  end.
Proof.
  unfold rt5670_dsp_event, Bind, power_up_reset.
  destruct (snd_soc_update_bits_after RT5670_DIG_MISC RT5670_RST_DSP
              RT5670_RST_DSP s) as [r1 E1].
  rewrite E1.
  destruct (snd_soc_update_bits_after RT5670_DIG_MISC RT5670_RST_DSP 0
              (after_update_bits s RT5670_DIG_MISC RT5670_RST_DSP
                 RT5670_RST_DSP)) as [r2 E2].
  rewrite E2. unfold mdelay. fold (after_mdelay
    (after_update_bits
       (after_update_bits s RT5670_DIG_MISC RT5670_RST_DSP RT5670_RST_DSP)
       RT5670_DIG_MISC RT5670_RST_DSP 0) 10).
  reflexivity.
Qed.

(** The power-down event sends the power-down command, a write of 1 to DSP
    register 0x22f9, and returns 0 whether or not that write succeeded; any
    event other than power-up and power-down does nothing and returns 0. *)
Theorem dsp_event_power_down (s : state D) :
  (exists o s',
      exec (write_sequence 0x22f9 1) s o s' /\
      rt5670_dsp_event decode_entry SND_SOC_DAPM_POST_PMD s = Ok 0 s') /\
  forall e, rt5670_dsp_event decode_entry (SND_SOC_DAPM_OTHER e) s = Ok 0 s.
Proof.
  split; [|intros e; reflexivity].
  destruct (rt5670_dsp_write_total 0x22f9 1 s) as (o & s' & Hex & Hw).
  exists o, s'. split; [exact Hex|].
  unfold rt5670_dsp_event, Bind. rewrite Hw. reflexivity.
Qed.

(** Writing the control stores the value, converted to the type of the
    field, whether or not the guard finds it changed; it returns 0 also
    when the value changed, reaches neither the bus nor the firmware
    pointer, and a following read of the control returns the stored
    value. *)
Theorem dsp_mode_put_get (value : Z) (s : state D) :
  dsp_sw_type (dsp_sw s) = dsp_sw s ->
  exists s',
    rt5670_dsp_mode_put dsp_sw_type value s = Ok 0 s' /\
    dsp_sw s' = dsp_sw_type value /\
    codec s' = codec s /\
    rt5670_dsp_fw s' = rt5670_dsp_fw s /\
    trace s' = trace s /\
    rt5670_dsp_mode_get s' = Ok (0, dsp_sw_type value) s'.
Proof.
  intros Hfield. unfold rt5670_dsp_mode_put, rt5670_dsp_mode_get.
  destruct (dsp_sw s =? value) eqn:E; simpl.
  - apply Z.eqb_eq in E. exists s.
    assert (Hsw : dsp_sw s = dsp_sw_type value) by congruence.
    rewrite <- Hsw. repeat split; reflexivity.
  - eexists. split; [reflexivity|]. simpl. repeat split; reflexivity.
Qed.

(** A value written to the control reaches the DSP at the next power-up
    and not before: the write causes no bus traffic, and the power-up
    event that follows runs the reset sequence and then applies the mode
    that was written. *)
Theorem dsp_mode_put_then_power_up (value : Z) (s : state D) :
  dsp_sw_type (dsp_sw s) = dsp_sw s ->
  exists s1,
    rt5670_dsp_mode_put dsp_sw_type value s = Ok 0 s1 /\
    trace s1 = trace s /\
    match rt5670_dsp_set_mode decode_entry (dsp_sw_type value)
            (power_up_reset s1) with
    | Ok _ s4 =>
        rt5670_dsp_event decode_entry SND_SOC_DAPM_POST_PMU s1 = Ok 0 s4
    | OutOfBounds i =>
        rt5670_dsp_event decode_entry SND_SOC_DAPM_POST_PMU s1
        = OutOfBounds i
    end.
Proof.
  intros Hfield.
  assert (Hput : exists s1,
             rt5670_dsp_mode_put dsp_sw_type value s = Ok 0 s1 /\
             trace s1 = trace s /\ dsp_sw s1 = dsp_sw_type value).
  { unfold rt5670_dsp_mode_put.
    destruct (dsp_sw s =? value) eqn:E; simpl.
    - apply Z.eqb_eq in E. exists s. repeat split; congruence.
    - eexists. repeat split; reflexivity. }
  destruct Hput as (s1 & Hput & Htr & Hsw).
  exists s1. split; [exact Hput|]. split; [exact Htr|].
  rewrite dsp_event_power_up_unfold, Hsw.
  destruct (rt5670_dsp_set_mode _ _ _); reflexivity.
Qed.

(** ** The probe *)

Lemma rt5670_dsp_probe_unfold (s : state D) :
  rt5670_dsp_probe decode_entry false s =
  match rt5670_dsp_set_mode decode_entry 0 (probe_reset s) with
  | Ok _ s5 =>
      match rt5670_dsp_write 0x22f9 1 (after_mdelay s5 15) with
      | Ok _ s7 =>
          Ok (0, probe_calls)
             (after_update_bits s7 RT5670_PWR_DIG2 RT5670_PWR_I2S_DSP 0)
      | OutOfBounds i => OutOfBounds i
      end
  | OutOfBounds i => OutOfBounds i
  end.
Proof.
  unfold rt5670_dsp_probe, Bind, probe_reset.
  destruct (snd_soc_update_bits_after RT5670_PWR_DIG2 RT5670_PWR_I2S_DSP
              RT5670_PWR_I2S_DSP s) as [r1 E1].
  rewrite E1.
  set (s1 := after_update_bits s RT5670_PWR_DIG2 RT5670_PWR_I2S_DSP
               RT5670_PWR_I2S_DSP).
  destruct (snd_soc_update_bits_after RT5670_DIG_MISC RT5670_RST_DSP
              RT5670_RST_DSP s1) as [r2 E2].
  rewrite E2.
  set (s2 := after_update_bits s1 RT5670_DIG_MISC RT5670_RST_DSP
               RT5670_RST_DSP).
  destruct (snd_soc_update_bits_after RT5670_DIG_MISC RT5670_RST_DSP 0 s2)
    as [r3 E3].
  rewrite E3.
  set (s3 := after_update_bits s2 RT5670_DIG_MISC RT5670_RST_DSP 0).
  change (mdelay 10 s3) with (Ok (D := D) tt (after_mdelay s3 10)).
  cbv iota beta.
  destruct (rt5670_dsp_set_mode decode_entry 0 (after_mdelay s3 10))
    as [r5 s5|i]; [|reflexivity].
  change (mdelay 15 s5) with (Ok (D := D) tt (after_mdelay s5 15)).
  cbv iota beta.
  destruct (rt5670_dsp_write 8953 1 (after_mdelay s5 15)) as [r7 s7|i];
    [|reflexivity].
  destruct (snd_soc_update_bits_after RT5670_PWR_DIG2 RT5670_PWR_I2S_DSP 0
              s7) as [r8 E8].
  rewrite E8. reflexivity.
Qed.

(** The probe refuses a NULL codec with [-EINVAL] and does nothing.
    Otherwise it powers the DSP interface, runs the reset sequence, applies
    mode 0, waits 15 ms, sends the power-down command and removes the
    power again; it then registers its 3 controls, 3 widgets and 6 routes
    and requests the firmware "rt567x_dsp.bin", and returns 0 whatever the
    bus, the mode call and the power-down command returned. *)
Theorem rt5670_dsp_probe_sequence (s : state D) :
  rt5670_dsp_probe decode_entry true s = Ok (- EINVAL, []) s /\
  match rt5670_dsp_set_mode decode_entry 0 (probe_reset s) with
  | OutOfBounds i => rt5670_dsp_probe decode_entry false s = OutOfBounds i
  | Ok _ s5 =>
      exists o s7,
        exec (write_sequence 0x22f9 1) (after_mdelay s5 15) o s7 /\
        rt5670_dsp_probe decode_entry false s =
          Ok (0, probe_calls)
             (after_update_bits s7 RT5670_PWR_DIG2 RT5670_PWR_I2S_DSP 0)
  end.
Proof.
  split; [reflexivity|].
  rewrite rt5670_dsp_probe_unfold.
  destruct (rt5670_dsp_set_mode decode_entry 0 (probe_reset s))
    as [r5 s5|i]; [|reflexivity].
  destruct (rt5670_dsp_write_total 0x22f9 1 (after_mdelay s5 15))
    as (o & s7 & Hex & Hw).
  exists o, s7. split; [exact Hex|]. rewrite Hw. reflexivity.
Qed.

(** A probe that runs while no firmware is loaded, as the first one does
    (the firmware is requested only at its end), applies no mode: the only
    DSP register it writes is the power-down command, between the power
    and reset updates and the removal of power, and it returns 0. *)
Theorem rt5670_dsp_probe_without_firmware (s : state D) :
  rt5670_dsp_fw s = None ->
  exists s' ops,
    rt5670_dsp_probe decode_entry false s = Ok (0, probe_calls) s' /\
    trace s' =
      trace s ++
      [ OpUpdateBits RT5670_PWR_DIG2 RT5670_PWR_I2S_DSP RT5670_PWR_I2S_DSP;
        OpUpdateBits RT5670_DIG_MISC RT5670_RST_DSP RT5670_RST_DSP;
        OpUpdateBits RT5670_DIG_MISC RT5670_RST_DSP 0;
        OpDelay 10;
        OpDelay 15;
        OpWrite RT5670_DSP_CTRL2 0x22f9 ] ++
      ops ++
      [ OpUpdateBits RT5670_PWR_DIG2 RT5670_PWR_I2S_DSP 0 ] /\
    (length ops <= 14)%nat /\
    rt5670_dsp_fw s' = None.
Proof.
  intros Hnone.
  rewrite rt5670_dsp_probe_unfold.
  assert (E5 : rt5670_dsp_set_mode decode_entry 0 (probe_reset s)
               = Ok (- EINVAL) (probe_reset s)).
  { unfold rt5670_dsp_set_mode.
    change (rt5670_dsp_fw (probe_reset s)) with (rt5670_dsp_fw s).
    rewrite Hnone. reflexivity. }
  rewrite E5.
  destruct (rt5670_dsp_write_total 0x22f9 1 (after_mdelay (probe_reset s) 15))
    as (o & s7 & Hex & Hw).
  rewrite Hw.
  destruct (exec_write_sequence_traffic _ _ _ _ _ Hex)
    as (ops & Htr & Hmax & _ & Hfw & _).
  eexists _, ops. split; [reflexivity|]. split; [|split; [exact Hmax|]].
  - unfold after_update_bits, emit. cbn [trace]. rewrite Htr.
    unfold after_mdelay, probe_reset, after_mdelay, after_update_bits, emit.
    cbn [trace]. repeat rewrite <- app_assoc. reflexivity.
  - unfold after_update_bits, emit. cbn [rt5670_dsp_fw]. rewrite Hfw.
    exact Hnone.
Qed.

End LifecycleMore.

(** A negative mode whose indices wrap: [-1431655765 * 3] is 1 as an
    [int], so the call reads bytes 2, 3 and 4 of the two-mode image (7, 1,
    0), inside the buffer, and refuses the table at 0x0701 they name. *)
Example set_mode_wrapping_mode :
  let s := sim_state [] [] (Some fw_two_modes) 0 in
  int_mul (-1431655765) 3 = 1 /\
  rt5670_dsp_set_mode (hdr := sample_header) sample_decode (-1431655765) s
    = Ok (- EINVAL) s.
Proof. split; reflexivity. Qed.

(** ** The further theorems at concrete inputs *)

(** A device that reports busy on twelve reads. *)
Lemma rt5670_dsp_read_busy_witness :
  let s := sim_state (repeat 0x20 12) [] None 0 in
  exists s',
    rt5670_dsp_read (hdr := sample_header) 0x1234 s
      = Ok (2 ^ 32 - EBUSY) s' /\
    polled (hdr := sample_header) 12 s s'.
Proof.
  intros s.
  apply (rt5670_dsp_read_busy (hdr := sample_header) 0x1234 s).
  unfold all_busy. simpl. repeat constructor.
Defined.

(** Mode -1 on the two-mode image: index -1. *)
Lemma set_mode_negative_mode_witness :
  let s := sim_state [] [] (Some fw_two_modes) 0 in
  rt5670_dsp_set_mode (hdr := sample_header) sample_decode (-1) s
    = OutOfBounds (-1 * 3 + 2) /\
  - 2 ^ 31 <= -1 * 3 + 2 < 0.
Proof.
  intros s.
  apply (set_mode_negative_mode (hdr := sample_header) sample_decode
           fw_two_modes (-1) x01 s eq_refl eq_refl).
  split; [apply Z.leb_le; reflexivity | reflexivity].
Defined.

(** Mode 0 on the two-mode image of 22 bytes. *)
Lemma set_mode_directory_in_image_witness :
  let s := sim_state [] [] (Some fw_two_modes) 0 in
  exists hi lo cnt,
    slot fw_two_modes 0 = [hi; lo; cnt] /\
    rt5670_dsp_set_mode (hdr := sample_header) sample_decode 0 s =
      if table_offset hi lo + u8 cnt * 5 >? size fw_two_modes
      then Ok (- EINVAL) s
      else rt5670_write_fw (hdr := sample_header) sample_decode fw_two_modes
             (table_offset hi lo) (u8 cnt) s.
Proof.
  intros s.
  apply (set_mode_directory_in_image (hdr := sample_header) sample_decode
           fw_two_modes 0 x01 s eq_refl eq_refl).
  - split; apply Z.leb_le; reflexivity.
  - apply Z.leb_le; reflexivity.
Defined.

(** Mode 0 on [fw_corrupt]. *)
Lemma set_mode_outcomes_witness :
  let s := sim_state [] [] (Some fw_corrupt) 0 in
  (exists idx,
      rt5670_dsp_set_mode (hdr := sample_header) sample_decode 0 s
        = OutOfBounds idx /\
      (idx < 0 \/ size fw_corrupt <= idx) /\
      (idx = 0 \/
       exists k, 1 <= k <= 3 /\ idx = int_add (int_mul 0 3) k)) \/
  rt5670_dsp_set_mode (hdr := sample_header) sample_decode 0 s
    = Ok (- EINVAL) s \/
  (exists b0 hi lo cnt,
      fw_byte fw_corrupt 0 = Some b0 /\ 0 <= u8 b0 /\
      fw_byte fw_corrupt (int_add (int_mul 0 3) 1) = Some hi /\
      fw_byte fw_corrupt (int_add (int_mul 0 3) 2) = Some lo /\
      fw_byte fw_corrupt (int_add (int_mul 0 3) 3) = Some cnt /\
      (0 <= 0 -> slot fw_corrupt 0 = [hi; lo; cnt]) /\
      table_offset hi lo + u8 cnt * 5 <= size fw_corrupt /\
      rt5670_dsp_set_mode (hdr := sample_header) sample_decode 0 s =
        rt5670_write_fw (hdr := sample_header) sample_decode fw_corrupt
          (table_offset hi lo) (u8 cnt) s).
Proof.
  intros s.
  exact (set_mode_outcomes (hdr := sample_header) sample_decode
           fw_corrupt 0 s eq_refl).
Defined.

(** The field taken as [int], mode 0 stored, 3 written. *)
Lemma dsp_mode_put_get_witness :
  let s := sim_state [] [] None 0 in
  exists s',
    rt5670_dsp_mode_put int32 3 s = Ok 0 s' /\
    dsp_sw s' = int32 3 /\
    codec s' = codec s /\
    rt5670_dsp_fw s' = rt5670_dsp_fw s /\
    trace s' = trace s /\
    rt5670_dsp_mode_get s' = Ok (0, int32 3) s'.
Proof.
  intros s. exact (dsp_mode_put_get int32 3 s eq_refl).
Defined.

Lemma dsp_mode_put_then_power_up_witness :
  let s := sim_state [] [] (Some fw_two_modes) 0 in
  exists s1,
    rt5670_dsp_mode_put int32 1 s = Ok 0 s1 /\
    trace s1 = trace s /\
    match rt5670_dsp_set_mode (hdr := sample_header) sample_decode (int32 1)
            (power_up_reset (hdr := sample_header) s1) with
    | Ok _ s4 =>
        rt5670_dsp_event (hdr := sample_header) sample_decode
          SND_SOC_DAPM_POST_PMU s1 = Ok 0 s4
    | OutOfBounds i =>
        rt5670_dsp_event (hdr := sample_header) sample_decode
          SND_SOC_DAPM_POST_PMU s1 = OutOfBounds i
    end.
Proof.
  intros s.
  exact (dsp_mode_put_then_power_up (hdr := sample_header) sample_decode
           int32 1 s eq_refl).
Defined.

(** A first probe on the scripted device. *)
Lemma rt5670_dsp_probe_without_firmware_witness :
  let s := sim_state [] [] None 0 in
  exists s' ops,
    rt5670_dsp_probe (hdr := sample_header) sample_decode false s
      = Ok (0, probe_calls) s' /\
    trace s' =
      trace s ++
      [ OpUpdateBits 0x62 0x40 0x40;
        OpUpdateBits 0xfa 0x4 0x4;
        OpUpdateBits 0xfa 0x4 0;
        OpDelay 10;
        OpDelay 15;
        OpWrite 0xe1 0x22f9 ] ++
      ops ++
      [ OpUpdateBits 0x62 0x40 0 ] /\
    (length ops <= 14)%nat /\
    rt5670_dsp_fw s' = None.
Proof.
  intros s.
  exact (rt5670_dsp_probe_without_firmware (hdr := sample_header)
           sample_decode s eq_refl).
Defined.

(** Writes succeed, then the device reports busy on twelve reads. *)
Lemma rt5670_dsp_write_busy_witness :
  let s := sim_state (repeat 0x20 12) [] None 0 in
  exists s',
    rt5670_dsp_write (hdr := sample_header) 0x22f9 1 s = Ok (- EBUSY) s' /\
    trace s' =
      trace s ++
      [ OpWrite 0xe1 0x22f9; OpWrite 0xe2 1; OpWrite 0xe0 0x3bcb ] ++
      repeat (OpRead 0xe0) 12.
Proof.
  intros s.
  apply (rt5670_dsp_write_busy (hdr := sample_header) 0x22f9 1 s).
  - apply Z.leb_le; reflexivity.
  - apply Z.leb_le; reflexivity.
  - apply Z.leb_le; reflexivity.
  - unfold all_busy. simpl. repeat constructor.
Defined.
